(** * obsidian-pandoc: frontmatter compiler, option validator, path resolver
      and argument vector

    A shallow embedding of the argument pipeline of the plugin:

    - [pandoc-options.ts]: the option registry [PANDOC_OPTIONS],
      [validatePandocOption] and [isFlagOnlyOption];
    - [main.ts]: [convertYamlToPandocArgs], [resolveFilePath],
      [getYAMLMetadata], [createBinaryMap] and [currentFileCanBeExported];
    - [renderer.ts]: [convertYamlToPandocArgs] and [resolveFilePath], of which
      [main.ts] holds copies;
    - [pandoc.ts]: [parseArgumentString], [needsStandaloneFlag] and the
      construction of the argument vector inside [pandoc].

    JavaScript strings are modelled by [string]; a character stands for one
    code unit below 256, so the white space class of the regular expression
    and of the number grammar is cut down to its members in that range.
    Asynchronous file-system and PATH probes are read-only, so they are
    modelled as oracles. *)

From stdpp Require Import gmap strings list.
From Stdlib Require Import String Ascii Bool Arith Lia.
Import ListNotations.

Local Open Scope string_scope.
Local Open Scope list_scope.
Local Set Warnings "-register-all".

(* stdpp freezes [String.append] under [simpl]; the proofs below compute with it *)
Local Arguments String.append : simpl nomatch.

(** ** JavaScript string primitives used by the sources *)

Module JsString.

(** [s.substring(n)] *)
Fixpoint drop (n : nat) (s : string) : string :=
  match n, s with
  | O, _ => s
  | S _, EmptyString => EmptyString
  | S n', String _ s' => drop n' s'
  end.

(** [s.startsWith(p)] *)
Definition startsWith (s p : string) : bool := String.prefix p s.

(** [s.endsWith(p)] *)
Definition endsWith (s p : string) : bool :=
  (String.length p <=? String.length s)%nat
  && String.eqb (drop (String.length s - String.length p) s) p.

(** [s.includes(p)] *)
Fixpoint includes (s p : string) : bool :=
  String.prefix p s
  || match s with
     | EmptyString => false
     | String _ s' => includes s' p
     end.

(** [xs.join(sep)] *)
Definition join (sep : string) (xs : list string) : string :=
  String.concat sep xs.

(** the first [n] characters, [s.substring(0, n)] *)
Fixpoint take (n : nat) (s : string) : string :=
  match n, s with
  | O, _ => EmptyString
  | S _, EmptyString => EmptyString
  | S n', String c s' => String c (take n' s')
  end.

(** [s.slice(1, -1)] *)
Definition slice_1_m1 (s : string) : string :=
  take (String.length s - 2) (drop 1 s).

(** [s.split('=')] followed by the destructuring
    [[flagPart, ...valueParts]] and [valueParts.join('=')]: the text before
    the first separator, and the text after it when there is one. *)
Fixpoint split_first (sep : ascii) (s : string) : string * option string :=
  match s with
  | EmptyString => (EmptyString, None)
  | String c s' =>
      if Ascii.eqb c sep then (EmptyString, Some s')
      else let (h, t) := split_first sep s' in (String c h, t)
  end.

(** [s.includes(c)] for a single character *)
Fixpoint has_char (c : ascii) (s : string) : bool :=
  match s with
  | EmptyString => false
  | String d s' => Ascii.eqb d c || has_char c s'
  end.

(** the white space of [\s], of [parseFloat] and of the string-to-number
    conversion: TAB, LF, VT, FF, CR, SP and NBSP *)
Definition is_space (c : ascii) : bool :=
  let n := nat_of_ascii c in
  ((n =? 9) || (n =? 10) || (n =? 11) || (n =? 12) || (n =? 13)
   || (n =? 32) || (n =? 160))%nat.

Definition is_digit (c : ascii) : bool :=
  let n := nat_of_ascii c in ((48 <=? n) && (n <=? 57))%nat.

Fixpoint trim_start (s : string) : string :=
  match s with
  | String c s' => if is_space c then trim_start s' else s
  | EmptyString => EmptyString
  end.

Fixpoint trim_end (s : string) : string :=
  match s with
  | EmptyString => EmptyString
  | String c s' =>
      match trim_end s' with
      | EmptyString => if is_space c then EmptyString else String c EmptyString
      | t => String c t
      end
  end.

Fixpoint skip_digits (s : string) : string :=
  match s with
  | String c s' => if is_digit c then skip_digits s' else s
  | EmptyString => EmptyString
  end.

Definition skip_sign (s : string) : string :=
  match s with
  | String "+" s' | String "-" s' => s'
  | _ => s
  end.

Fixpoint all_chars (p : ascii -> bool) (s : string) : bool :=
  match s with
  | EmptyString => true
  | String c s' => p c && all_chars p s'
  end.

Definition nonempty (s : string) : bool :=
  match s with EmptyString => false | _ => true end.

End JsString.

(** ** Header values *)

(** What [YAML.parse] hands to the compiler, as far as the code inspects it.
    A number is carried by its canonical rendering ([Number.prototype.toString]),
    which fixes the number up to the sign of zero; the number [NaN] is [VNum "NaN"]. *)
Inductive value : Type :=
| VUndefined
| VNull
| VBool (b : bool)
| VNum (repr : string)
| VStr (s : string)
| VArr (items : list value)
| VObj (fields : list (string * value)).

(** [typeof v] *)
Definition typeof (v : value) : string :=
  match v with
  | VUndefined => "undefined"
  | VBool _ => "boolean"
  | VNum _ => "number"
  | VStr _ => "string"
  | VNull | VArr _ | VObj _ => "object"
  end.

(** [String(v)], which is also the conversion a template literal applies.
    [Array.prototype.join] renders [null] and [undefined] elements as empty. *)
Fixpoint ToString (v : value) : string :=
  match v with
  | VUndefined => "undefined"
  | VNull => "null"
  | VBool true => "true"
  | VBool false => "false"
  | VNum r => r
  | VStr s => s
  | VArr items =>
      JsString.join ","
        (List.map (fun i => match i with
                            | VUndefined | VNull => EmptyString
                            | _ => ToString i
                            end) items)
  | VObj _ => "[object Object]"
  end.

(** [v === null || v === undefined] *)
Definition nullish (v : value) : bool :=
  match v with
  | VUndefined | VNull => true
  | _ => false
  end.

(** ** pandoc-options.ts *)

Inductive OptionType : Type := TBoolean | TString | TNumber | TChoice | TFile.

(** [PandocOptionSchema] without its [description], which no code reads.
    An absent [flagOnly] or [allowMultiple] is [false]: the code only tests
    them for truth. *)
Record PandocOptionSchema : Type := mkSchema {
  type : OptionType;
  flagOnly : bool;
  choices : option (list string);
  allowMultiple : bool
}.

Definition PANDOC_OPTIONS : list (string * PandocOptionSchema) :=
  [
    ("from", mkSchema TChoice false (Some ["markdown"; "commonmark"; "docx"; "csv"; "html"; "json"; "latex"; "odt"]) false);
    ("read", mkSchema TChoice false (Some ["markdown"; "commonmark"; "docx"; "csv"; "html"; "json"; "latex"; "odt"]) false);
    ("to", mkSchema TChoice false (Some ["asciidoc"; "beamer"; "commonmark_x"; "docx"; "epub"; "html"; "pdf"; "json"; "latex"; "odt"; "pptx"; "revealjs"; "rtf"; "docuwiki"; "mediawiki"]) false);
    ("write", mkSchema TChoice false (Some ["asciidoc"; "beamer"; "commonmark_x"; "docx"; "epub"; "html"; "pdf"; "json"; "latex"; "odt"; "pptx"; "revealjs"; "rtf"; "docuwiki"; "mediawiki"]) false);
    ("output", mkSchema TFile false None false);
    ("data-dir", mkSchema TFile false None false);
    ("metadata", mkSchema TString false None true);
    ("metadata-file", mkSchema TFile false None true);
    ("defaults", mkSchema TFile false None false);
    ("file-scope", mkSchema TBoolean false None false);
    ("sandbox", mkSchema TBoolean false None false);
    ("standalone", mkSchema TBoolean false None false);
    ("template", mkSchema TFile false None false);
    ("variable", mkSchema TString false None true);
    ("variable-json", mkSchema TString false None true);
    ("wrap", mkSchema TChoice false (Some ["auto"; "none"; "preserve"]) false);
    ("ascii", mkSchema TBoolean false None false);
    ("toc", mkSchema TBoolean true None false);
    ("table-of-contents", mkSchema TBoolean true None false);
    ("toc-depth", mkSchema TNumber false None false);
    ("lof", mkSchema TBoolean true None false);
    ("list-of-figures", mkSchema TBoolean true None false);
    ("lot", mkSchema TBoolean true None false);
    ("list-of-tables", mkSchema TBoolean true None false);
    ("number-sections", mkSchema TBoolean true None false);
    ("number-offset", mkSchema TString false None false);
    ("top-level-division", mkSchema TChoice false (Some ["section"; "chapter"; "part"]) false);
    ("extract-media", mkSchema TFile false None false);
    ("resource-path", mkSchema TString false None true);
    ("include-in-header", mkSchema TFile false None true);
    ("include-before-body", mkSchema TFile false None true);
    ("include-after-body", mkSchema TFile false None true);
    ("no-highlight", mkSchema TBoolean true None false);
    ("highlight-style", mkSchema TString false None false);
    ("syntax-definition", mkSchema TFile false None true);
    ("dpi", mkSchema TNumber false None false);
    ("eol", mkSchema TChoice false (Some ["crlf"; "lf"; "native"]) false);
    ("columns", mkSchema TNumber false None false);
    ("preserve-tabs", mkSchema TBoolean false None false);
    ("tab-stop", mkSchema TNumber false None false);
    ("pdf-engine", mkSchema TChoice false (Some ["pdflatex"; "lualatex"; "xelatex"; "wkhtmltopdf"; "weasyprint"; "pagedjs-cli"; "prince"; "context"; "pdfroff"]) false);
    ("pdf-engine-opt", mkSchema TString false None true);
    ("reference-doc", mkSchema TFile false None false);
    ("self-contained", mkSchema TBoolean false None false);
    ("embed-resources", mkSchema TBoolean false None false);
    ("link-images", mkSchema TBoolean false None false);
    ("request-header", mkSchema TString false None true);
    ("no-check-certificate", mkSchema TBoolean false None false);
    ("citeproc", mkSchema TBoolean true None false);
    ("bibliography", mkSchema TFile false None true);
    ("csl", mkSchema TFile false None false);
    ("citation-abbreviations", mkSchema TFile false None false);
    ("natbib", mkSchema TBoolean true None false);
    ("biblatex", mkSchema TBoolean true None false);
    ("mathml", mkSchema TBoolean true None false);
    ("webtex", mkSchema TString false None false);
    ("mathjax", mkSchema TString false None false);
    ("katex", mkSchema TString false None false);
    ("gladtex", mkSchema TBoolean true None false);
    ("abbreviations", mkSchema TFile false None false);
    ("indented-code-classes", mkSchema TString false None false);
    ("default-image-extension", mkSchema TString false None false);
    ("filter", mkSchema TString false None true);
    ("lua-filter", mkSchema TFile false None true);
    ("shift-heading-level-by", mkSchema TNumber false None false);
    ("base-header-level", mkSchema TNumber false None false);
    ("track-changes", mkSchema TChoice false (Some ["accept"; "reject"; "all"]) false);
    ("strip-comments", mkSchema TBoolean false None false);
    ("reference-links", mkSchema TBoolean false None false);
    ("reference-location", mkSchema TChoice false (Some ["block"; "section"; "document"]) false);
    ("css", mkSchema TFile false None true);
    ("epub-subdirectory", mkSchema TString false None false);
    ("epub-cover-image", mkSchema TFile false None false);
    ("epub-title-page", mkSchema TBoolean false None false);
    ("epub-metadata", mkSchema TFile false None false);
    ("epub-embed-font", mkSchema TFile false None true);
    ("split-level", mkSchema TNumber false None false);
    ("chunk-template", mkSchema TFile false None false);
    ("epub-chapter-level", mkSchema TNumber false None false);
    ("ipynb-output", mkSchema TChoice false (Some ["all"; "none"; "best"]) false);
    ("slide-level", mkSchema TNumber false None false);
    ("section-divs", mkSchema TBoolean false None false);
    ("html-q-tags", mkSchema TBoolean false None false);
    ("email-obfuscation", mkSchema TChoice false (Some ["none"; "javascript"; "references"]) false);
    ("id-prefix", mkSchema TString false None false);
    ("title-prefix", mkSchema TString false None false);
    ("listings", mkSchema TBoolean false None false);
    ("incremental", mkSchema TBoolean false None false);
    ("figure-caption-position", mkSchema TChoice false (Some ["above"; "below"]) false);
    ("table-caption-position", mkSchema TChoice false (Some ["above"; "below"]) false);
    ("markdown-headings", mkSchema TChoice false (Some ["setext"; "atx"]) false);
    ("list-tables", mkSchema TBoolean false None false);
    ("trace", mkSchema TBoolean false None false);
    ("dump-args", mkSchema TBoolean false None false);
    ("ignore-args", mkSchema TBoolean false None false);
    ("verbose", mkSchema TBoolean true None false);
    ("quiet", mkSchema TBoolean true None false);
    ("fail-if-warnings", mkSchema TBoolean false None false);
    ("log", mkSchema TFile false None false);
    ("version", mkSchema TBoolean true None false);
    ("help", mkSchema TBoolean true None false);
    ("list-input-formats", mkSchema TBoolean true None false);
    ("list-output-formats", mkSchema TBoolean true None false);
    ("list-extensions", mkSchema TString false None false);
    ("list-highlight-languages", mkSchema TBoolean true None false);
    ("list-highlight-styles", mkSchema TBoolean true None false);
    ("print-default-template", mkSchema TString false None false);
    ("print-default-data-file", mkSchema TFile false None false);
    ("print-highlight-style", mkSchema TString false None false);
    ("bash-completion", mkSchema TBoolean true None false)
  ].

(** [PANDOC_OPTIONS[optionName]]. A name inherited from [Object.prototype]
    yields an object without [type] and [flagOnly], which both functions
    below treat as they treat an absent schema. *)
Fixpoint assoc {A : Type} (k : string) (l : list (string * A)) : option A :=
  match l with
  | [] => None
  | (k', a) :: l' => if String.eqb k' k then Some a else assoc k l'
  end.

Definition schemaOf (optionName : string) : option PandocOptionSchema :=
  assoc optionName PANDOC_OPTIONS.

Record ValidationResult : Type := mkResult {
  isValid : bool;
  error : option string
}.

Definition valid : ValidationResult := mkResult true None.
Definition invalid (msg : string) : ValidationResult := mkResult false (Some msg).

(** *** The number tests of the validator *)

(** [isNaN(parseFloat(s))]: [parseFloat] skips leading white space and reads
    the longest prefix that is a signed decimal literal; the result is NaN
    exactly when there is no such prefix. *)
Definition parseFloat_isNaN (s : string) : bool :=
  let u := JsString.skip_sign (JsString.trim_start s) in
  negb (JsString.startsWith u "Infinity"
        || match u with
           | String c r =>
               JsString.is_digit c
               || (Ascii.eqb c "."
                   && match r with
                      | String d _ => JsString.is_digit d
                      | EmptyString => false
                      end)
           | EmptyString => false
           end).

Definition is_hex (c : ascii) : bool :=
  let n := nat_of_ascii c in
  (JsString.is_digit c || ((65 <=? n) && (n <=? 70)) || ((97 <=? n) && (n <=? 102)))%nat.

Definition is_octal (c : ascii) : bool :=
  let n := nat_of_ascii c in ((48 <=? n) && (n <=? 55))%nat.

Definition is_binary (c : ascii) : bool :=
  let n := nat_of_ascii c in ((48 <=? n) && (n <=? 49))%nat.

(** an unsigned decimal literal that fills the whole string *)
Definition decimal_exact (u : string) : bool :=
  let r1 := JsString.skip_digits u in
  let n1 := String.length u - String.length r1 in
  let '(r2, n2) :=
    match r1 with
    | String "." r =>
        let r' := JsString.skip_digits r in (r', String.length r - String.length r')
    | _ => (r1, 0)
    end in
  (0 <? n1 + n2)%nat
  && match r2 with
     | EmptyString => true
     | String e r3 =>
         (Ascii.eqb e "e" || Ascii.eqb e "E")
         && (let r4 := JsString.skip_sign r3 in
             JsString.nonempty r4 && JsString.all_chars JsString.is_digit r4)
     end.

(** [isNaN(Number(s))] for a string [s]: the trimmed text must be empty, a
    prefixed binary, octal or hexadecimal integer, or a signed decimal
    literal. *)
Definition StringToNumber_isNaN (s : string) : bool :=
  let t := JsString.trim_end (JsString.trim_start s) in
  negb
    match t with
    | EmptyString => true
    | String "0" (String p r) =>
        if Ascii.eqb p "x" || Ascii.eqb p "X" then JsString.nonempty r && JsString.all_chars is_hex r
        else if Ascii.eqb p "o" || Ascii.eqb p "O" then JsString.nonempty r && JsString.all_chars is_octal r
        else if Ascii.eqb p "b" || Ascii.eqb p "B" then JsString.nonempty r && JsString.all_chars is_binary r
        else decimal_exact t
    | _ =>
        let u := JsString.skip_sign t in
        String.eqb u "Infinity" || decimal_exact u
    end.

(** [isNaN(v)] for a value that is not a string: the argument is first
    converted to a number. *)
Definition isNaN (v : value) : bool :=
  match v with
  | VUndefined => true
  | VNull | VBool _ => false
  | VNum r => String.eqb r "NaN"
  | VStr s => StringToNumber_isNaN s
  | VArr _ | VObj _ => StringToNumber_isNaN (ToString v)
  end.

(** *** validatePandocOption *)

Definition validatePandocOption (optionName : string) (v : value) : ValidationResult :=
  match schemaOf optionName with
  | None => valid
  | Some schema =>
      match type schema with
      | TBoolean =>
          if flagOnly schema && negb match v with VBool true => true | _ => false end then
            invalid ("Option '" +:+ optionName
                     +:+ "' is flag-only and should be set to true, not '"
                     +:+ ToString v +:+ "'")
          else if negb (String.eqb (typeof v) "boolean") then
            invalid ("Option '" +:+ optionName
                     +:+ "' expects a boolean value, got '" +:+ typeof v +:+ "'")
          else valid
      | TChoice =>
          match choices schema with
          | Some cs =>
              if negb (String.eqb (typeof v) "string")
                 || negb match v with
                         | VStr s => existsb (String.eqb s) cs
                         | _ => false
                         end then
                invalid ("Option '" +:+ optionName +:+ "' must be one of: "
                         +:+ JsString.join ", " cs +:+ ". Got '" +:+ ToString v +:+ "'")
              else valid
          | None => valid
          end
      | TNumber =>
          let nan := match v with
                     | VStr s => parseFloat_isNaN s
                     | _ => isNaN v
                     end in
          if nan then
            invalid ("Option '" +:+ optionName +:+ "' expects a number, got '"
                     +:+ ToString v +:+ "'")
          else valid
      | TString | TFile =>
          if negb (String.eqb (typeof v) "string") then
            invalid ("Option '" +:+ optionName +:+ "' expects a string, got '"
                     +:+ typeof v +:+ "'")
          else valid
      end
  end.

(** *** isFlagOnlyOption *)

Definition isFlagOnlyOption (optionName : string) (v : value) : bool :=
  match schemaOf optionName with
  | Some schema => flagOnly schema && match v with VBool true => true | _ => false end
  | None => false
  end.

(** ** main.ts *)

(** [FILE_PATH_ARGUMENTS], the set local to [convertYamlToPandocArgs] *)
Definition FILE_PATH_ARGUMENTS : list string :=
  [ "template"; "css"; "bibliography"; "csl"; "reference-doc"; "reference-odt";
    "reference-docx"; "epub-cover-image"; "epub-stylesheet"; "include-in-header";
    "include-before-body"; "include-after-body"; "lua-filter"; "filter";
    "metadata-file"; "abbreviations"; "syntax-definition" ].

(** [FILE_PATH_ARGUMENTS.has(argName)] *)
Definition isFilePathArgument (argName : string) : bool :=
  existsb (String.eqb argName) FILE_PATH_ARGUMENTS.

Definition commonDirs : list string :=
  [ "templates"; "Templates"; "_templates"; "pandoc"; ".pandoc"; "assets" ].

(** What the compiler reads from its surroundings: Node's [path] module,
    the [fileExists] helper of [global.ts] and the [templateFolder] setting. *)
Record Host : Type := mkHost {
  path_isAbsolute : string -> bool;
  path_resolve : list string -> string;
  fileExists : string -> bool;
  templateFolder : option string
}.

(** the state of the loop of [convertYamlToPandocArgs] and its result;
    [cleanedMetadata] holds the own properties of the object *)
Record Compiled : Type := mkCompiled {
  cleanedMetadata : gmap string value;
  cliArgs : list string
}.

Section Compiler.

Context (host : Host).

(** truth of [this.settings.templateFolder] *)
Definition templateFolderSet : option string :=
  match templateFolder host with
  | Some EmptyString | None => None
  | Some t => Some t
  end.

(** the loop over [commonDirs]: the first directory under which the file
    exists decides; without one the original path is returned *)
Fixpoint tryCommonDirs (dirs : list string) (filePath vaultBasePath : string) : string :=
  match dirs with
  | [] => filePath
  | dir :: rest =>
      let templatePath := path_resolve host [vaultBasePath; dir; filePath] in
      if fileExists host templatePath then templatePath
      else tryCommonDirs rest filePath vaultBasePath
  end.

(** the configured template folder, read as an absolute directory or as a
    directory under the vault *)
Definition tryTemplateFolder (filePath vaultBasePath : string) : option string :=
  match templateFolderSet with
  | Some folder =>
      let customPath :=
        if path_isAbsolute host folder
        then path_resolve host [folder; filePath]
        else path_resolve host [vaultBasePath; folder; filePath] in
      if fileExists host customPath then Some customPath else None
  | None => None
  end.

Definition resolveFilePath (filePath currentFileDir vaultBasePath : string) : string :=
  if path_isAbsolute host filePath then filePath
  else
    let relativeToCurrent := path_resolve host [currentFileDir; filePath] in
    if fileExists host relativeToCurrent then relativeToCurrent
    else
      let relativeToVault := path_resolve host [vaultBasePath; filePath] in
      if fileExists host relativeToVault then relativeToVault
      else
        match tryTemplateFolder filePath vaultBasePath with
        | Some customPath => customPath
        | None => tryCommonDirs commonDirs filePath vaultBasePath
        end.

(** the value written after [--name=]: a file-valued option has its value
    converted to a string and resolved, any other value is interpolated *)
Definition renderValue (argName : string) (v : value)
    (currentFileDir vaultBasePath : string) : string :=
  if isFilePathArgument argName
  then resolveFilePath (ToString v) currentFileDir vaultBasePath
  else ToString v.

(** the tokens one header field pushes onto [cliArgs] *)
Definition directiveArgs (key : string) (v : value)
    (currentFileDir vaultBasePath : string) : list string :=
  let argName := JsString.drop 7 key in
  match v with
  | VBool true => ["--" +:+ argName]
  | VBool false | VNull | VUndefined => []
  | VArr items =>
      List.map
        (fun item => "--" +:+ argName +:+ "="
                     +:+ renderValue argName item currentFileDir vaultBasePath)
        (List.filter (fun item => negb (nullish item)) items)
  | _ => ["--" +:+ argName +:+ "="
          +:+ renderValue argName v currentFileDir vaultBasePath]
  end.

(** the tokens of one header field, directive or not *)
Definition fieldArgs (currentFileDir vaultBasePath : string)
    (field : string * value) : list string :=
  if JsString.startsWith (fst field) "pandoc-"
  then directiveArgs (fst field) (snd field) currentFileDir vaultBasePath
  else [].

(** One turn of the loop over [Object.entries(metadata)]. The assignment
    [cleanedMetadata[key] = value] adds or replaces an own property, except
    at the key [__proto__]: the entries of an object have distinct keys, so
    that key is assigned at most once, to an object that still inherits from
    [Object.prototype], and the assignment runs the inherited setter, which
    gives the object no own property. *)
Definition compileField (currentFileDir vaultBasePath : string)
    (acc : Compiled) (field : string * value) : Compiled :=
  let (key, v) := field in
  if JsString.startsWith key "pandoc-" then
    mkCompiled (cleanedMetadata acc)
               (cliArgs acc ++ directiveArgs key v currentFileDir vaultBasePath)
  else if String.eqb key "__proto__" then
    mkCompiled (cleanedMetadata acc) (cliArgs acc)
  else
    mkCompiled (<[key := v]> (cleanedMetadata acc)) (cliArgs acc).

(** [metadata] is given by [Object.entries(metadata)], in the order of the
    loop *)
Definition convertYamlToPandocArgs (metadata : list (string * value))
    (currentFileDir vaultBasePath : string) : Compiled :=
  List.fold_left (compileField currentFileDir vaultBasePath) metadata
                 (mkCompiled ∅ []).

End Compiler.

(** The search path in the words of the specification: the locations a
    relative reference is looked up at, in order. *)
Definition candidateLocations (host : Host) (filePath dir vault : string) : list string :=
  [ path_resolve host [dir; filePath]; path_resolve host [vault; filePath] ]
  ++ match templateFolderSet host with
     | Some folder =>
         [ if path_isAbsolute host folder
           then path_resolve host [folder; filePath]
           else path_resolve host [vault; folder; filePath] ]
     | None => []
     end
  ++ List.map (fun d => path_resolve host [vault; d; filePath])
       [ "templates"; "Templates"; "_templates"; "pandoc"; ".pandoc"; "assets" ].

(** the first location at which the file exists, if any *)
Fixpoint firstExisting (host : Host) (locations : list string) : option string :=
  match locations with
  | [] => None
  | p :: rest => if fileExists host p then Some p else firstExisting host rest
  end.

(** ** pandoc.ts *)

Definition dquote : ascii := ascii_of_nat 34.
Definition squote : ascii := "'"%char.

Module ArgRegex.

(** The expression of [parseArgumentString]: one or more turns of a group
    with three alternatives, a run of characters that are neither white
    space nor quotes, a text between two double quotes, and a text between
    two single quotes. The alternatives start with different characters and
    nothing follows the group, so the greedy match never backtracks. *)

Definition is_quote (c : ascii) : bool := Ascii.eqb c dquote || Ascii.eqb c squote.

Definition plain (c : ascii) : bool := negb (JsString.is_space c) && negb (is_quote c).

(** a run of plain characters and what follows it *)
Fixpoint span_plain (s : string) : string * string :=
  match s with
  | String c s' =>
      if plain c then let (m, r) := span_plain s' in (String c m, r)
      else (EmptyString, s)
  | EmptyString => (EmptyString, EmptyString)
  end.

(** the text up to the next [q], and what follows that [q] *)
Fixpoint until_quote (q : ascii) (s : string) : option (string * string) :=
  match s with
  | EmptyString => None
  | String c s' =>
      if Ascii.eqb c q then Some (EmptyString, s')
      else match until_quote q s' with
           | Some (m, r) => Some (String c m, r)
           | None => None
           end
  end.

(** one turn of the group at the head of [s] *)
Definition group (s : string) : option (string * string) :=
  match s with
  | EmptyString => None
  | String c s' =>
      if plain c then Some (span_plain s)
      else if is_quote c then
        match until_quote c s' with
        | Some (body, r) => Some (String c (body +:+ String c EmptyString), r)
        | None => None
        end
      else None
  end.

(** the group repeated as often as it matches *)
Fixpoint group_star (fuel : nat) (s : string) : string * string :=
  match fuel with
  | O => (EmptyString, s)
  | S fuel' =>
      match group s with
      | None => (EmptyString, s)
      | Some (m, r) => let (m', r') := group_star fuel' r in (m +:+ m', r')
      end
  end.

(** the successive results of [regex.exec]: a match is taken where the
    group matches at least once, otherwise the search moves on by one
    character *)
Fixpoint exec_all (fuel : nat) (s : string) : list string :=
  match fuel with
  | O => []
  | S fuel' =>
      match s with
      | EmptyString => []
      | String _ s' =>
          match group_star (String.length s) s with
          | (EmptyString, _) => exec_all fuel' s'
          | (m, r) => m :: exec_all fuel' r
          end
      end
  end.

End ArgRegex.

(** the body of the [while] loop of [parseArgumentString] *)
Definition parseOneArg (arg : string) : string :=
  if JsString.has_char "=" arg then
    match JsString.split_first "=" arg with
    | (flagPart, Some joined) =>
        let q1 := String dquote EmptyString in
        let q2 := String squote EmptyString in
        let value :=
          if (JsString.startsWith joined q1 && JsString.endsWith joined q1)
             || (JsString.startsWith joined q2 && JsString.endsWith joined q2)
          then JsString.slice_1_m1 joined
          else joined in
        flagPart +:+ "=" +:+ value
    | (_, None) => arg
    end
  else arg.

Definition parseArgumentString (argString : string) : list string :=
  List.map parseOneArg (ArgRegex.exec_all (S (String.length argString)) argString).

Record PandocInput : Type := mkInput {
  in_file : string;
  in_format : option string;
  in_contents : option string;
  metadataFile : option string;
  in_pandoc : option string;
  in_pdflatex : option string;
  directory : string;
  documentArgs : option (list string)
}.

Record PandocOutput : Type := mkOutput {
  out_file : string;
  out_format : option string
}.

(** [output.format === name] *)
Definition formatIs (o : PandocOutput) (name : string) : bool :=
  match out_format o with
  | Some f => String.eqb f name
  | None => false
  end.

Definition needsStandaloneFlag (output : PandocOutput) : bool :=
  JsString.endsWith (out_file output) "html"
  || formatIs output "html"
  || formatIs output "revealjs"
  || formatIs output "latex"
  || formatIs output "beamer".

(** an optional string that is present and not empty *)
Definition truthy (o : option string) : option string :=
  match o with
  | Some EmptyString | None => None
  | Some s => Some s
  end.

(** the tokens the global extra parameters contribute *)
Definition parsedArgs (extraParams : list string) : list string :=
  List.filter JsString.nonempty (List.flat_map parseArgumentString extraParams).

Section Pandoc.

(** whether [lookpath] finds the named program *)
Variable lookpath : string -> bool.

(** [xs?.some(x => x.includes('--pdf-engine')) || false] *)
Definition mentionsPdfEngine (xs : option (list string)) : bool :=
  match xs with
  | Some l => existsb (fun x => JsString.includes x "--pdf-engine") l
  | None => false
  end.

(** the argument vector [args] that [pandoc] hands to [spawn] *)
Definition pandocArgs (input : PandocInput) (output : PandocOutput)
    (extraParams : option (list string)) : list string :=
  let stdin := String.eqb (in_file input) "STDIN" in
  let stdout := String.eqb (out_file output) "STDOUT" in
  let args : list string := [] in
  let args := match truthy (in_format input) with
              | Some f => args ++ ["--from"; f]
              | None => args
              end in
  let args := match truthy (out_format output) with
              | Some f => args ++ ["--to"; f]
              | None => args
              end in
  let args := if needsStandaloneFlag output then args ++ ["-s"] else args in
  let args := if negb stdout then args ++ ["-o"; out_file output]
              else args ++ ["-o"; "-"] in
  let args :=
    if formatIs output "pdf" then
      let hasUserPdfEngine :=
        mentionsPdfEngine extraParams || mentionsPdfEngine (documentArgs input) in
      if negb hasUserPdfEngine then
        if lookpath "lualatex" then args ++ ["--pdf-engine=lualatex"]
        else if lookpath "xelatex" then args ++ ["--pdf-engine=xelatex"]
        else args
      else args
    else args in
  let args := if negb stdin then args ++ [in_file input] else args in
  let args := match truthy (metadataFile input) with
              | Some f => args ++ ["--metadata-file"; f]
              | None => args
              end in
  let args := match extraParams with
              | Some ps => args ++ parsedArgs ps
              | None => args
              end in
  let args := match documentArgs input with
              | Some ds => args ++ ds
              | None => args
              end in
  args.

End Pandoc.

(** ** A POSIX host *)

Module Posix.

(** [path.isAbsolute] of [path.posix] *)
Definition isAbsolute (p : string) : bool :=
  match p with
  | String "/" _ => true
  | _ => false
  end.

(** the segments between slashes *)
Fixpoint segments (cur : string) (s : string) : list string :=
  match s with
  | EmptyString => [cur]
  | String c s' =>
      if Ascii.eqb c "/" then cur :: segments EmptyString s'
      else segments (cur +:+ String c EmptyString) s'
  end.

(** [normalizeString] above an absolute root: empty and dot segments are
    dropped, a double dot removes the segment before it *)
Fixpoint normalize (stack : list string) (segs : list string) : list string :=
  match segs with
  | [] => List.rev stack
  | seg :: rest =>
      if String.eqb seg EmptyString || String.eqb seg "." then normalize stack rest
      else if String.eqb seg ".." then normalize (List.tl stack) rest
      else normalize (seg :: stack) rest
  end.

(** the right-to-left scan of [path.resolve]: arguments are prepended until
    one of them is absolute *)
Fixpoint joinUntilAbsolute (rev_args : list string) (acc : string) : string * bool :=
  match rev_args with
  | [] => (acc, false)
  | p :: rest =>
      if JsString.nonempty p then
        if isAbsolute p then (p +:+ "/" +:+ acc, true)
        else joinUntilAbsolute rest (p +:+ "/" +:+ acc)
      else joinUntilAbsolute rest acc
  end.

(** [path.resolve(...args)] in a process whose working directory is the
    absolute path [cwd] *)
Definition resolve (cwd : string) (args : list string) : string :=
  let (joined, absolute) := joinUntilAbsolute (List.rev args) EmptyString in
  let full := if absolute then joined else cwd +:+ "/" +:+ joined in
  "/" +:+ JsString.join "/" (normalize [] (segments EmptyString full)).

(** a host whose file system holds exactly the files [files] *)
Definition host (cwd : string) (files : list string) (folder : option string) : Host :=
  mkHost isAbsolute (resolve cwd) (fun p => existsb (String.eqb p) files) folder.

End Posix.

(** ** Further parts of the sources *)

(** *** pandoc-options.ts: the exported set of file-valued options *)

Definition FILE_PATH_ARGUMENTS_exported : list string :=
  [ "template"; "css"; "bibliography"; "csl"; "reference-doc"; "reference-odt";
    "reference-docx"; "epub-cover-image"; "epub-stylesheet"; "include-in-header";
    "include-before-body"; "include-after-body"; "lua-filter"; "filter";
    "metadata-file"; "abbreviations"; "syntax-definition"; "defaults";
    "data-dir"; "extract-media"; "output"; "epub-metadata"; "epub-embed-font";
    "chunk-template"; "citation-abbreviations"; "log"; "print-default-data-file" ].

(** what holds of every row of the registry: only boolean options are
    flag-only, and a choice option lists at least one choice *)
Definition rowWellFormed (row : string * PandocOptionSchema) : bool :=
  let schema := snd row in
  (negb (flagOnly schema)
   || match type schema with TBoolean => true | _ => false end)
  && match type schema with
     | TChoice => match choices schema with
                  | Some (_ :: _) => true
                  | _ => false
                  end
     | _ => true
     end.

(** *** pandoc.ts: what an output format needs *)

Definition inputExtensions : list string :=
  [ "md"; "docx"; "csv"; "html"; "tex"; "odt" ].

Definition needsLaTeX (format : string) : bool := String.eqb format "pdf".

Definition needsPandoc (format : string) : bool := negb (String.eqb format "html").

Definition needsUnicodeStripped (output : PandocOutput) : bool :=
  formatIs output "latex" || formatIs output "pdf" || formatIs output "beamer".

(** *** main.ts: the binary map *)

(** truth of an optional string *)
Definition isTruthy (o : option string) : bool :=
  match truthy o with
  | Some _ => true
  | None => false
  end.

(** [a || b] on optional strings *)
Definition jsOr (a b : option string) : option string :=
  if isTruthy a then a else b.

(** The fields of the plugin that the export check reads and writes;
    [features] is only ever used at the keys [pandoc] and [pdflatex]. *)
Record PluginState : Type := mkState {
  features_pandoc : option string;
  features_pdflatex : option string;
  binaryMapInitialized : bool;
  everFoundPandoc : bool;
  cachedPandocPath : option string
}.

(** the state of a plugin that has just been constructed *)
Definition initialState : PluginState := mkState None None false false None.

(** [createBinaryMap]; [settingsPandoc] and [settingsPdflatex] are the two
    settings, [foundPandoc] and [foundPdflatex] what [lookpath] answers *)
Definition createBinaryMap (settingsPandoc settingsPdflatex : option string)
    (foundPandoc foundPdflatex : option string) (st : PluginState) : PluginState :=
  if binaryMapInitialized st then st
  else
    let pandocPath := jsOr settingsPandoc foundPandoc in
    let pdflatexPath := jsOr settingsPdflatex foundPdflatex in
    if isTruthy pandocPath
    then mkState pandocPath pdflatexPath true true pandocPath
    else mkState pandocPath pdflatexPath true (everFoundPandoc st) (cachedPandocPath st).

(** [currentFileCanBeExported]; [file] is what [getCurrentFile] returns. The
    result comes with the state, since the check may restore the cached
    path. *)
Definition currentFileCanBeExported (st : PluginState) (file : option string)
    (format : string) : bool * PluginState :=
  match truthy file with
  | None => (false, st)
  | Some f =>
      if negb (existsb (JsString.endsWith f) inputExtensions) then (false, st)
      else if negb (binaryMapInitialized st) then (true, st)
      else if needsPandoc format && everFoundPandoc st then
        if negb (isTruthy (features_pandoc st)) && isTruthy (cachedPandocPath st)
        then (true, mkState (cachedPandocPath st) (features_pdflatex st)
                            (binaryMapInitialized st) (everFoundPandoc st)
                            (cachedPandocPath st))
        else (true, st)
      else if needsPandoc format && negb (isTruthy (features_pandoc st)) then (false, st)
      else if needsLaTeX format && negb (isTruthy (features_pdflatex st)) then (false, st)
      else (true, st)
  end.

(** *** main.ts: the header of a document *)

(** [s.indexOf(p)], with [None] for -1 *)
Fixpoint indexOf (s p : string) : option nat :=
  if String.prefix p s then Some 0
  else match s with
       | EmptyString => None
       | String _ s' => option_map S (indexOf s' p)
       end.

(** [s.trim()] *)
Definition trim (s : string) : string := JsString.trim_end (JsString.trim_start s).

Section Header.

(** [YAML.parse] *)
Variable YAML_parse : string -> value.

(** [getYAMLMetadata]; a negative end of [substring] counts as zero *)
Definition getYAMLMetadata (markdown : string) : value :=
  let markdown := trim markdown in
  if JsString.startsWith markdown "---" then
    let trailing := JsString.drop 3 markdown in
    let stop := match indexOf trailing "---" with
                | Some i => i
                | None => 0
                end in
    let frontmatter := trim (JsString.take stop trailing) in
    YAML_parse frontmatter
  else VObj [].

End Header.

(** *** renderer.ts: the compiler of the HTML export *)

(** [main.ts] holds copies of three functions of [renderer.ts]. The
    renderer's [getYAMLMetadata] is the one above; its resolver and its
    compiler differ from the copies and are given here. *)
Module Renderer.

Definition commonDirs : list string :=
  [ "templates"; "Templates"; "_templates"; "pandoc"; "assets" ].

(** [FILE_PATH_ARGUMENTS.has(argName)], with the set that
    [pandoc-options.ts] exports *)
Definition isFilePathArgument (argName : string) : bool :=
  existsb (String.eqb argName) FILE_PATH_ARGUMENTS_exported.

(** the state of the loop of the compiler and its result, with the
    notices shown to the user on the way *)
Record Compiled : Type := mkCompiled {
  cleanedMetadata : gmap string value;
  cliArgs : list string;
  notices : list string
}.

(** [${validation.error}] *)
Definition errorText (r : ValidationResult) : string :=
  match error r with
  | Some msg => msg
  | None => "undefined"
  end.

Section Compiler.

Context (host : Host).

Fixpoint tryCommonDirs (dirs : list string) (filePath vaultBasePath : string) : string :=
  match dirs with
  | [] => filePath
  | dir :: rest =>
      let templatePath := path_resolve host [vaultBasePath; dir; filePath] in
      if fileExists host templatePath then templatePath
      else tryCommonDirs rest filePath vaultBasePath
  end.

Definition tryTemplateFolder (filePath vaultBasePath : string)
    (customTemplateFolder : option string) : option string :=
  match truthy customTemplateFolder with
  | Some folder =>
      let customPath :=
        if path_isAbsolute host folder
        then path_resolve host [folder; filePath]
        else path_resolve host [vaultBasePath; folder; filePath] in
      if fileExists host customPath then Some customPath else None
  | None => None
  end.

Definition resolveFilePath (filePath currentFileDir vaultBasePath : string)
    (customTemplateFolder : option string) : string :=
  if path_isAbsolute host filePath then filePath
  else
    let relativeToCurrent := path_resolve host [currentFileDir; filePath] in
    if fileExists host relativeToCurrent then relativeToCurrent
    else
      let relativeToVault := path_resolve host [vaultBasePath; filePath] in
      if fileExists host relativeToVault then relativeToVault
      else
        match tryTemplateFolder filePath vaultBasePath customTemplateFolder with
        | Some customPath => customPath
        | None => tryCommonDirs commonDirs filePath vaultBasePath
        end.

Definition renderValue (argName : string) (v : value)
    (currentFileDir vaultBasePath : string) (customTemplateFolder : option string) : string :=
  if isFilePathArgument argName
  then resolveFilePath (ToString v) currentFileDir vaultBasePath customTemplateFolder
  else ToString v.

(** one turn of the loop over the elements of an array value: the tokens
    and the notices so far, and those after the element *)
Definition compileItem (key argName currentFileDir vaultBasePath : string)
    (customTemplateFolder : option string)
    (acc : list string * list string) (item : value) : list string * list string :=
  if nullish item then acc
  else
    let itemValidation := validatePandocOption argName item in
    if negb (isValid itemValidation) then
      (fst acc,
       snd acc ++ ["Pandoc argument validation error for " +:+ key +:+ "[]: "
                   +:+ errorText itemValidation])
    else
      (fst acc ++ ["--" +:+ argName +:+ "="
                   +:+ renderValue argName item currentFileDir vaultBasePath
                         customTemplateFolder],
       snd acc).

(** the tokens and the notices of one directive *)
Definition directiveOutput (key : string) (v : value)
    (currentFileDir vaultBasePath : string) (customTemplateFolder : option string)
    : list string * list string :=
  let argName := JsString.drop 7 key in
  let validation := validatePandocOption argName v in
  if negb (isValid validation) then
    ([], ["Pandoc argument validation error: " +:+ errorText validation])
  else
    match v with
    | VBool false | VNull | VUndefined => ([], [])
    | VBool true =>
        if isFlagOnlyOption argName v then (["--" +:+ argName], [])
        else (["--" +:+ argName +:+ "=true"], [])
    | VArr items =>
        List.fold_left
          (compileItem key argName currentFileDir vaultBasePath customTemplateFolder)
          items ([], [])
    | _ => (["--" +:+ argName +:+ "="
             +:+ renderValue argName v currentFileDir vaultBasePath customTemplateFolder],
            [])
    end.

(** the tokens and the notices of one header field, directive or not *)
Definition fieldOutput (currentFileDir vaultBasePath : string)
    (customTemplateFolder : option string) (field : string * value)
    : list string * list string :=
  if JsString.startsWith (fst field) "pandoc-"
  then directiveOutput (fst field) (snd field) currentFileDir vaultBasePath
         customTemplateFolder
  else ([], []).

(** one turn of the loop over [Object.entries(metadata)]; the assignment to
    [cleanedMetadata] is that of the copy in [main.ts] *)
Definition compileField (currentFileDir vaultBasePath : string)
    (customTemplateFolder : option string)
    (acc : Compiled) (field : string * value) : Compiled :=
  let (key, v) := field in
  if JsString.startsWith key "pandoc-" then
    let out := directiveOutput key v currentFileDir vaultBasePath customTemplateFolder in
    mkCompiled (cleanedMetadata acc) (cliArgs acc ++ fst out) (notices acc ++ snd out)
  else if String.eqb key "__proto__" then
    mkCompiled (cleanedMetadata acc) (cliArgs acc) (notices acc)
  else
    mkCompiled (<[key := v]> (cleanedMetadata acc)) (cliArgs acc) (notices acc).

Definition convertYamlToPandocArgs (metadata : list (string * value))
    (currentFileDir vaultBasePath : string) (customTemplateFolder : option string)
    : Compiled :=
  List.fold_left (compileField currentFileDir vaultBasePath customTemplateFolder)
                 metadata (mkCompiled ∅ [] []).

End Compiler.

End Renderer.

(** * Properties *)

(** ** Strings *)

Lemma startsWith_app (p s : string) : JsString.startsWith (p +:+ s) p = true.
Proof.
  unfold JsString.startsWith. induction p as [|c p IH]; simpl.
  - by destruct s.
  - destruct (ascii_dec c c); [exact IH | done].
Qed.


(** ** The compiler loop *)

Section CompilerFacts.

Context (host : Host) (currentFileDir vaultBasePath : string).

Lemma cliArgs_fold (md : list (string * value)) (acc : Compiled) :
  cliArgs (List.fold_left (compileField host currentFileDir vaultBasePath) md acc)
  = cliArgs acc ++ List.flat_map (fieldArgs host currentFileDir vaultBasePath) md.
Proof.
  revert acc. induction md as [|[key v] md IH]; intros acc; simpl.
  - by rewrite app_nil_r.
  - rewrite IH. unfold fieldArgs; simpl.
    destruct (JsString.startsWith key "pandoc-"); simpl.
    + by rewrite <- app_assoc.
    + by destruct (String.eqb key "__proto__").
Qed.

Lemma cliArgs_compile (md : list (string * value)) :
  cliArgs (convertYamlToPandocArgs host md currentFileDir vaultBasePath)
  = List.flat_map (fieldArgs host currentFileDir vaultBasePath) md.
Proof. unfold convertYamlToPandocArgs. by rewrite cliArgs_fold. Qed.

Lemma cliArgs_app (md1 md2 : list (string * value)) :
  cliArgs (convertYamlToPandocArgs host (md1 ++ md2) currentFileDir vaultBasePath)
  = cliArgs (convertYamlToPandocArgs host md1 currentFileDir vaultBasePath)
    ++ cliArgs (convertYamlToPandocArgs host md2 currentFileDir vaultBasePath).
Proof. rewrite !cliArgs_compile. apply flat_map_app. Qed.

Lemma cliArgs_directive (name : string) (v : value) :
  cliArgs (convertYamlToPandocArgs host [("pandoc-" +:+ name, v)] currentFileDir vaultBasePath)
  = directiveArgs host ("pandoc-" +:+ name) v currentFileDir vaultBasePath.
Proof.
  rewrite cliArgs_compile. unfold List.flat_map, fieldArgs, fst, snd.
  rewrite startsWith_app. apply app_nil_r.
Qed.

Lemma cliArgs_around (pre post : list (string * value)) (name : string) (v : value) :
  cliArgs (convertYamlToPandocArgs host (pre ++ ("pandoc-" +:+ name, v) :: post)
             currentFileDir vaultBasePath)
  = cliArgs (convertYamlToPandocArgs host pre currentFileDir vaultBasePath)
    ++ directiveArgs host ("pandoc-" +:+ name) v currentFileDir vaultBasePath
    ++ cliArgs (convertYamlToPandocArgs host post currentFileDir vaultBasePath).
Proof.
  change (("pandoc-" +:+ name, v) :: post) with ([("pandoc-" +:+ name, v)] ++ post).
  by rewrite !cliArgs_app, cliArgs_directive.
Qed.

(** a key that no field carries keeps its entry *)
Lemma cleaned_other (md : list (string * value)) (acc : Compiled) (k : string) :
  k ∉ md.*1 ->
  cleanedMetadata (List.fold_left (compileField host currentFileDir vaultBasePath) md acc) !! k = cleanedMetadata acc !! k.
Proof.
  revert acc. induction md as [|[key v] md IH]; intros acc Hk; simpl; [done|].
  simpl in Hk. apply not_elem_of_cons in Hk as [Hne Hk].
  rewrite IH by done.
  destruct (JsString.startsWith key "pandoc-"); simpl; [done|].
  destruct (String.eqb key "__proto__"); simpl; [done|].
  by rewrite lookup_insert_ne.
Qed.

(** a directive key never enters the cleaned metadata *)
Lemma cleaned_directive (md : list (string * value)) (acc : Compiled) (k : string) :
  JsString.startsWith k "pandoc-" = true ->
  cleanedMetadata (List.fold_left (compileField host currentFileDir vaultBasePath) md acc) !! k = cleanedMetadata acc !! k.
Proof.
  intros Hk. revert acc. induction md as [|[key v] md IH]; intros acc; simpl; [done|].
  rewrite IH.
  destruct (JsString.startsWith key "pandoc-") eqn:Hkey; simpl; [done|].
  destruct (String.eqb key "__proto__"); simpl; [done|].
  rewrite lookup_insert_ne; [done|]. intros ->. congruence.
Qed.

(** a field that is neither a directive nor the prototype accessor is copied *)
Lemma cleaned_copied (md : list (string * value)) (acc : Compiled) (k : string) (v : value) :
  NoDup md.*1 -> (k, v) ∈ md -> JsString.startsWith k "pandoc-" = false ->
  k <> "__proto__" ->
  cleanedMetadata (List.fold_left (compileField host currentFileDir vaultBasePath) md acc) !! k = Some v.
Proof.
  revert acc. induction md as [|[key w] md IH]; intros acc Hnd Hin Hk Hp; simpl.
  - by apply elem_of_nil in Hin.
  - simpl in Hnd. apply NoDup_cons in Hnd as [Hfresh Hnd].
    apply elem_of_cons in Hin as [Heq|Hin].
    + injection Heq as <- <-. rewrite cleaned_other by done.
      rewrite Hk. apply String.eqb_neq in Hp. rewrite Hp. simpl.
      apply lookup_insert_eq.
    + by apply IH.
Qed.

(** whatever the cleaned metadata holds was there before or is a copied field *)
Lemma cleaned_origin (md : list (string * value)) (acc : Compiled) (k : string) (v : value) :
  cleanedMetadata (List.fold_left (compileField host currentFileDir vaultBasePath) md acc) !! k = Some v ->
  cleanedMetadata acc !! k = Some v
  \/ ((k, v) ∈ md /\ JsString.startsWith k "pandoc-" = false /\ k <> "__proto__").
Proof.
  revert acc. induction md as [|[key w] md IH]; intros acc H; simpl in *; [by left|].
  apply IH in H as [H|(Hin & Hk & Hp)].
  - destruct (JsString.startsWith key "pandoc-") eqn:Hkey; simpl in H; [by left|].
    destruct (String.eqb_spec key "__proto__") as [Hproto|Hproto]; simpl in H; [by left|].
    destruct (decide (key = k)) as [->|Hne].
    + rewrite lookup_insert_eq in H. injection H as ->.
      right. split; [apply elem_of_cons; by left | done].
    + rewrite lookup_insert_ne in H by done. by left.
  - right. split; [apply elem_of_cons; by right | done].
Qed.

End CompilerFacts.

Lemma includes_prefix (s p : string) :
  String.prefix p s = true -> JsString.includes s p = true.
Proof. intros H. destruct s; cbn [JsString.includes]; rewrite H; done. Qed.

Lemma includes_app (a s p : string) :
  JsString.includes s p = true -> JsString.includes (a +:+ s) p = true.
Proof.
  intros H. induction a as [|c a IH]; simpl; [exact H|].
  rewrite IH. apply orb_true_r.
Qed.

(** ** The validator *)

(** Number options: a number other than NaN and a string with a numeric
    prefix pass; a string without one is refused, and the message says that a
    number is expected. *)
Lemma validate_number_kind (name : string) (schema : PandocOptionSchema) :
  schemaOf name = Some schema -> type schema = TNumber ->
  (forall r, String.eqb r "NaN" = false ->
             validatePandocOption name (VNum r) = valid)
  /\ (forall s, parseFloat_isNaN s = false ->
                validatePandocOption name (VStr s) = valid)
  /\ (forall s, parseFloat_isNaN s = true ->
                isValid (validatePandocOption name (VStr s)) = false
                /\ exists msg, error (validatePandocOption name (VStr s)) = Some msg
                               /\ JsString.includes msg "number" = true).
Proof.
  intros Hs Ht. unfold validatePandocOption. rewrite Hs, Ht.
  repeat split.
  - intros r Hr. simpl. by rewrite Hr.
  - intros s Hn. by rewrite Hn.
  - by rewrite H.
  - rewrite H. eexists. split; [reflexivity|].
    apply includes_app, includes_app. reflexivity.
Qed.

Example validate_toc_depth :
  validatePandocOption "toc-depth" (VNum "3") = valid
  /\ validatePandocOption "toc-depth" (VStr "3") = valid
  /\ isValid (validatePandocOption "toc-depth" (VStr "three")) = false.
Proof.
  destruct (validate_number_kind "toc-depth" (mkSchema TNumber false None false)
              eq_refl eq_refl) as (Hnum & Hstr & Hbad).
  split; [by apply Hnum|]. split; [by apply Hstr|]. by apply Hbad.
Qed.



(** ** The frontmatter compiler *)

(** In the copy of the compiler in [main.ts] a directive whose value is the
    boolean true yields the bare switch [--name] whatever kind the registry
    gives the option, and a directive whose value is the boolean false yields
    no token. *)
Lemma main_copy_true_is_bare_switch (host : Host) (dir vault : string)
    (pre post : list (string * value)) (name : string) :
  cliArgs (convertYamlToPandocArgs host
             (pre ++ ("pandoc-" +:+ name, VBool true) :: post) dir vault)
  = cliArgs (convertYamlToPandocArgs host pre dir vault)
    ++ ["--" +:+ name]
    ++ cliArgs (convertYamlToPandocArgs host post dir vault)
  /\ cliArgs (convertYamlToPandocArgs host
                (pre ++ ("pandoc-" +:+ name, VBool false) :: post) dir vault)
     = cliArgs (convertYamlToPandocArgs host pre dir vault)
       ++ cliArgs (convertYamlToPandocArgs host post dir vault).
Proof. split; rewrite cliArgs_around; reflexivity. Qed.

(** C1 at the header [pandoc-standalone: true]: [standalone] is a boolean
    option that is not flag-only; the compiler of [renderer.ts] asks
    [isFlagOnlyOption] and emits [--standalone=true], as the claim says, and
    its copy in [main.ts], which does not ask, emits [--standalone]. *)
Theorem C1_main_copy_ignores_flag_only (host : Host) (dir vault : string)
    (folder : option string) :
  schemaOf "standalone" = Some (mkSchema TBoolean false None false)
  /\ isFlagOnlyOption "standalone" (VBool true) = false
  /\ Renderer.cliArgs
       (Renderer.convertYamlToPandocArgs host
          [("pandoc-standalone", VBool true)] dir vault folder)
     = ["--standalone=true"]
  /\ cliArgs (convertYamlToPandocArgs host
                [("pandoc-standalone", VBool true)] dir vault)
     = ["--standalone"].
Proof. repeat split; reflexivity. Qed.

(** C2 at the header [pandoc-pdf-engine: invalid-engine]: the validator
    refuses the value, listing the choices, and the compiler of [main.ts],
    which does not consult the validator, emits the token all the same. *)
Theorem C2_invalid_choice_is_emitted (host : Host) (dir vault : string) :
  validatePandocOption "pdf-engine" (VStr "invalid-engine")
  = invalid ("Option 'pdf-engine' must be one of: pdflatex, lualatex, xelatex, "
             +:+ "wkhtmltopdf, weasyprint, pagedjs-cli, prince, context, pdfroff. "
             +:+ "Got 'invalid-engine'")
  /\ cliArgs (convertYamlToPandocArgs host
                [("pandoc-pdf-engine", VStr "invalid-engine")] dir vault)
     = ["--pdf-engine=invalid-engine"].
Proof. split; reflexivity. Qed.

(** C8 at the header [pandoc-toc-depth: not-a-number]: the validator refuses
    the value with a message that mentions the word number, and the compiler
    of [main.ts] emits the token all the same. *)
Theorem C8_invalid_number_is_emitted (host : Host) (dir vault : string) :
  validatePandocOption "toc-depth" (VStr "not-a-number")
  = invalid "Option 'toc-depth' expects a number, got 'not-a-number'"
  /\ cliArgs (convertYamlToPandocArgs host
                [("pandoc-toc-depth", VStr "not-a-number")] dir vault)
     = ["--toc-depth=not-a-number"].
Proof. split; reflexivity. Qed.

(** C5 at the header [__proto__: v]: the key does not start with the
    directive marker, yet the field is not copied: the assignment
    [cleanedMetadata[key] = value] gives the object no own property of that
    name, and the cleaned metadata stay empty. *)
Theorem C5_proto_field_is_not_copied (host : Host) (dir vault : string) (v : value) :
  JsString.startsWith "__proto__" "pandoc-" = false
  /\ cleanedMetadata (convertYamlToPandocArgs host [("__proto__", v)] dir vault) = ∅
  /\ cleanedMetadata
       (convertYamlToPandocArgs host
          [("title", VStr "Report"); ("__proto__", v); ("pandoc-toc", VBool true)]
          dir vault)
     = {[ "title" := VStr "Report" ]}.
Proof. repeat split; reflexivity. Qed.




(** ** The path resolver *)

(** C9: a reference that is an absolute path is returned as it is, whatever
    the directories are and whether or not the file exists. *)
Theorem C9_absolute_unchanged (host : Host) (filePath dir vault : string) :
  path_isAbsolute host filePath = true ->
  resolveFilePath host filePath dir vault = filePath.
Proof. intros H. unfold resolveFilePath. by rewrite H. Qed.

Lemma C9_witness_absolute :
  resolveFilePath (Posix.host "/" [] (Some "tpl")) "/etc/pandoc/refs.bib"
                  "/vault/notes" "/vault"
  = "/etc/pandoc/refs.bib".
Proof. apply C9_absolute_unchanged. reflexivity. Defined.

Lemma firstExisting_app (host : Host) (l1 l2 : list string) :
  firstExisting host (l1 ++ l2)
  = match firstExisting host l1 with
    | Some p => Some p
    | None => firstExisting host l2
    end.
Proof.
  induction l1 as [|p l1 IH]; simpl; [done|].
  by destruct (fileExists host p).
Qed.

Lemma tryCommonDirs_first (host : Host) (dirs : list string) (filePath vault : string) :
  tryCommonDirs host dirs filePath vault
  = default filePath
      (firstExisting host (List.map (fun d => path_resolve host [vault; d; filePath]) dirs)).
Proof.
  induction dirs as [|d dirs IH]; simpl; [done|].
  by destruct (fileExists host _).
Qed.

Lemma firstExisting_Some (host : Host) (locations : list string) (p : string) :
  firstExisting host locations = Some p ->
  exists before after,
    locations = before ++ p :: after
    /\ Forall (fun c => fileExists host c = false) before
    /\ fileExists host p = true.
Proof.
  induction locations as [|c rest IH]; simpl; [done|].
  destruct (fileExists host c) eqn:Hc.
  - intros [= ->]. by exists [], rest.
  - intros H. destruct (IH H) as (before & after & -> & Hb & Hp).
    exists (c :: before), after. repeat split; [by constructor | done].
Qed.

Lemma firstExisting_None (host : Host) (locations : list string) :
  firstExisting host locations = None ->
  Forall (fun c => fileExists host c = false) locations.
Proof.
  induction locations as [|c rest IH]; simpl; [by constructor|].
  destruct (fileExists host c) eqn:Hc; [done|]. intros H. constructor; auto.
Qed.

Lemma resolveFilePath_first (host : Host) (filePath dir vault : string) :
  path_isAbsolute host filePath = false ->
  resolveFilePath host filePath dir vault
  = default filePath (firstExisting host (candidateLocations host filePath dir vault)).
Proof.
  intros Hrel. unfold resolveFilePath, candidateLocations, tryTemplateFolder.
  rewrite Hrel, tryCommonDirs_first. unfold commonDirs.
  rewrite (firstExisting_app host [_; _]). cbn [firstExisting].
  destruct (fileExists host (path_resolve host [dir; filePath])); [done|].
  destruct (fileExists host (path_resolve host [vault; filePath])); [done|].
  rewrite firstExisting_app.
  destruct (templateFolderSet host) as [folder|]; cbn [firstExisting]; [|done].
  by destruct (fileExists host _).
Qed.

(** C4: for a relative reference the resolver looks in the directory of the
    document, then in the root directory, then in the configured folder if
    one is set (taken as it is when absolute, under the root otherwise), then
    under the root in templates, Templates, _templates, pandoc, .pandoc and
    assets, and returns the first of these locations at which the file
    exists; when the file exists at none of them it returns the reference
    unchanged. *)
Theorem C4_first_existing_location (host : Host) (filePath dir vault : string) :
  path_isAbsolute host filePath = false ->
  (exists before found after,
      candidateLocations host filePath dir vault = before ++ found :: after
      /\ Forall (fun c => fileExists host c = false) before
      /\ fileExists host found = true
      /\ resolveFilePath host filePath dir vault = found)
  \/ (Forall (fun c => fileExists host c = false)
             (candidateLocations host filePath dir vault)
      /\ resolveFilePath host filePath dir vault = filePath).
Proof.
  intros Hrel. rewrite resolveFilePath_first by done.
  destruct (firstExisting host (candidateLocations host filePath dir vault)) as [p|] eqn:H.
  - left. apply firstExisting_Some in H as (before & after & Heq & Hb & Hp).
    by exists before, p, after.
  - right. split; [by apply firstExisting_None | done].
Qed.

Lemma C4_witness_custom_folder :
  (exists before found after,
      candidateLocations (Posix.host "/" ["/vault/tpl/refs.bib"] (Some "tpl"))
        "refs.bib" "/vault/notes" "/vault" = before ++ found :: after
      /\ Forall (fun c => fileExists (Posix.host "/" ["/vault/tpl/refs.bib"] (Some "tpl")) c
                          = false) before
      /\ fileExists (Posix.host "/" ["/vault/tpl/refs.bib"] (Some "tpl")) found = true
      /\ resolveFilePath (Posix.host "/" ["/vault/tpl/refs.bib"] (Some "tpl"))
           "refs.bib" "/vault/notes" "/vault" = found)
  \/ (Forall (fun c => fileExists (Posix.host "/" ["/vault/tpl/refs.bib"] (Some "tpl")) c
                       = false)
             (candidateLocations (Posix.host "/" ["/vault/tpl/refs.bib"] (Some "tpl"))
                "refs.bib" "/vault/notes" "/vault")
      /\ resolveFilePath (Posix.host "/" ["/vault/tpl/refs.bib"] (Some "tpl"))
           "refs.bib" "/vault/notes" "/vault" = "refs.bib").
Proof. apply C4_first_existing_location. reflexivity. Defined.

(** the scenario of the specification: a file that exists only under the
    configured folder, and a file that exists nowhere *)
Example resolve_under_custom_folder :
  resolveFilePath (Posix.host "/" ["/vault/tpl/refs.bib"] (Some "tpl"))
                  "refs.bib" "/vault/notes" "/vault" = "/vault/tpl/refs.bib"
  /\ resolveFilePath (Posix.host "/" [] (Some "tpl"))
                     "refs.bib" "/vault/notes" "/vault" = "refs.bib".
Proof. split; reflexivity. Qed.

(** the document's own directory wins over every later location *)
Example resolve_prefers_document_directory :
  resolveFilePath
    (Posix.host "/" ["/vault/assets/a.css"; "/vault/a.css"; "/vault/notes/a.css"] None)
    "a.css" "/vault/notes" "/vault" = "/vault/notes/a.css".
Proof. reflexivity. Qed.

(** ** The argument vector *)

(** C3: in the argument vector the tokens parsed from the global extra
    arguments form one block, the per-document arguments follow it as the
    last block, and so every token of the first stands before every token of
    the second. *)
Theorem C3_defaults_before_document_arguments (lookpath : string -> bool)
    (input : PandocInput) (output : PandocOutput) (extraParams docArgs : list string) :
  documentArgs input = Some docArgs ->
  exists before,
    pandocArgs lookpath input output (Some extraParams)
    = before ++ parsedArgs extraParams ++ docArgs
    /\ forall i j d a,
         parsedArgs extraParams !! i = Some d -> docArgs !! j = Some a ->
         pandocArgs lookpath input output (Some extraParams)
           !! (List.length before + i) = Some d
         /\ pandocArgs lookpath input output (Some extraParams)
              !! (List.length before + List.length (parsedArgs extraParams) + j) = Some a
         /\ List.length before + i
            < List.length before + List.length (parsedArgs extraParams) + j.
Proof.
  intros Hdoc. unfold pandocArgs. cbv zeta. rewrite Hdoc.
  match goal with
  | |- exists b, (?B ++ _) ++ _ = _ /\ _ => exists B
  end.
  split; [by rewrite app_assoc|].
  intros i j d a Hi Hj.
  pose proof (lookup_lt_Some _ _ _ Hi) as Hlt.
  repeat split.
  - rewrite <- app_assoc. rewrite lookup_app_r by lia.
    rewrite lookup_app_l by lia. rewrite <- Hi. f_equal. lia.
  - rewrite lookup_app_r by (rewrite length_app; lia).
    rewrite <- Hj. f_equal. rewrite length_app. lia.
  - lia.
Qed.

Lemma C3_witness_two_blocks :
  exists before,
    pandocArgs (fun _ => false)
      (mkInput "/vault/notes/a.md" (Some "markdown") None None None None "/vault/notes"
               (Some ["--toc"; "--css=/vault/a b.css"]))
      (mkOutput "/vault/notes/a.docx" (Some "docx"))
      (Some ["--number-sections -V lang=en"; "--toc-depth=2"])
    = before ++ ["--number-sections"; "-V"; "lang=en"; "--toc-depth=2"]
             ++ ["--toc"; "--css=/vault/a b.css"].
Proof.
  destruct (C3_defaults_before_document_arguments (fun _ => false)
              (mkInput "/vault/notes/a.md" (Some "markdown") None None None None
                       "/vault/notes" (Some ["--toc"; "--css=/vault/a b.css"]))
              (mkOutput "/vault/notes/a.docx" (Some "docx"))
              ["--number-sections -V lang=en"; "--toc-depth=2"]
              ["--toc"; "--css=/vault/a b.css"] eq_refl) as (before & H & _).
  exists before. exact H.
Defined.

Example pandocArgs_docx :
  pandocArgs (fun _ => false)
    (mkInput "/vault/notes/a.md" (Some "markdown") None None None None "/vault/notes"
             (Some ["--toc"; "--css=/vault/a b.css"]))
    (mkOutput "/vault/notes/a.docx" (Some "docx"))
    (Some ["--number-sections -V lang=en"; "--toc-depth=2"])
  = ["--from"; "markdown"; "--to"; "docx"; "-o"; "/vault/notes/a.docx";
     "/vault/notes/a.md"; "--number-sections"; "-V"; "lang=en"; "--toc-depth=2";
     "--toc"; "--css=/vault/a b.css"].
Proof. reflexivity. Qed.

(** ** The extra-argument parser *)

Lemma str_length_app (a b : string) :
  String.length (a +:+ b) = String.length a + String.length b.
Proof. induction a as [|c a IH]; simpl; [done | by rewrite IH]. Qed.

Lemma str_app_assoc (a b c : string) : (a +:+ b) +:+ c = a +:+ (b +:+ c).
Proof. induction a as [|x a IH]; simpl; [done | by rewrite IH]. Qed.

Lemma str_app_nil_r (a : string) : a +:+ EmptyString = a.
Proof. induction a as [|x a IH]; simpl; [done | by rewrite IH]. Qed.

Lemma take_app (a b : string) : JsString.take (String.length a) (a +:+ b) = a.
Proof.
  induction a as [|x a IH]; simpl; [by destruct b | by rewrite IH].
Qed.

Lemma all_chars_app (p : ascii -> bool) (a b : string) :
  JsString.all_chars p (a +:+ b) = JsString.all_chars p a && JsString.all_chars p b.
Proof.
  induction a as [|x a IH]; simpl; [done|]. rewrite IH. apply andb_assoc.
Qed.



Module ArgRegexFacts.
Import ArgRegex.

Lemma quote_not_plain (q : ascii) : is_quote q = true -> plain q = false.
Proof. intros H. unfold plain. rewrite H. apply andb_false_r. Qed.

Lemma span_plain_app (s m r : string) : span_plain s = (m, r) -> s = m +:+ r.
Proof.
  revert m r. induction s as [|c s IH]; simpl; intros m r H.
  - by injection H as <- <-.
  - destruct (plain c).
    + destruct (span_plain s) as [m' r'] eqn:Hs. injection H as <- <-.
      simpl. f_equal. by apply IH.
    + by injection H as <- <-.
Qed.

Lemma span_plain_run (f : string) (q : ascii) (r : string) :
  JsString.all_chars plain f = true -> plain q = false ->
  span_plain (f +:+ String q r) = (f, String q r).
Proof.
  intros Hf Hq. induction f as [|c f IH]; simpl.
  - by rewrite Hq.
  - simpl in Hf. apply andb_true_iff in Hf as [Hc Hf]. rewrite Hc, IH; done.
Qed.

Lemma until_quote_app (q : ascii) (s m r : string) :
  until_quote q s = Some (m, r) -> s = m +:+ String q r.
Proof.
  revert m r. induction s as [|c s IH]; simpl; intros m r H; [done|].
  destruct (Ascii.eqb_spec c q) as [->|Hne].
  - by injection H as <- <-.
  - destruct (until_quote q s) as [[m' r']|]; [|done].
    injection H as <- <-. simpl. f_equal. by apply IH.
Qed.


(** a turn of the group consumes what it matches, and at least one character *)
Lemma group_app (s m r : string) :
  group s = Some (m, r) -> s = m +:+ r /\ String.length r < String.length s.
Proof.
  destruct s as [|c s]; [done|]. unfold group.
  destruct (plain c) eqn:Hc.
  - simpl. rewrite Hc.
    destruct (span_plain s) as [m' r'] eqn:Hs. intros [= <- <-].
    apply span_plain_app in Hs. subst s.
    split; [done|]. simpl. rewrite str_length_app. lia.
  - destruct (is_quote c); [|done].
    destruct (until_quote c s) as [[body r']|] eqn:Hu; [|done].
    intros [= <- <-]. apply until_quote_app in Hu. subst s.
    split.
    + simpl. by rewrite str_app_assoc.
    + simpl. rewrite str_length_app. simpl. lia.
Qed.

Lemma group_star_app (n : nat) (s m r : string) :
  group_star n s = (m, r) -> s = m +:+ r.
Proof.
  revert s m r. induction n as [|n IH]; simpl; intros s m r H.
  - by injection H as <- <-.
  - destruct (group s) as [[m1 r1]|] eqn:Hg.
    + destruct (group_star n r1) as [m2 r2] eqn:Hs. injection H as <- <-.
      apply group_app in Hg as [-> _]. apply IH in Hs as ->.
      by rewrite str_app_assoc.
    + by injection H as <- <-.
Qed.

(** the length of the text is fuel enough for the repetition *)
Lemma group_star_fuel (n1 n2 : nat) (s : string) :
  String.length s <= n1 -> String.length s <= n2 ->
  group_star n1 s = group_star n2 s.
Proof.
  revert n2 s. induction n1 as [|n1 IH]; intros n2 s H1 H2.
  - destruct s; [|simpl in H1; lia]. by destruct n2.
  - destruct n2 as [|n2].
    + destruct s; [done | simpl in H2; lia].
    + simpl. destruct (group s) as [[m r]|] eqn:Hg; [|done].
      apply group_app in Hg as [_ Hlt].
      rewrite (IH n2 r) by lia. done.
Qed.

(** and one more than the length is fuel enough for the search *)
Lemma exec_all_fuel (n1 n2 : nat) (s : string) :
  String.length s < n1 -> String.length s < n2 ->
  exec_all n1 s = exec_all n2 s.
Proof.
  revert n2 s. induction n1 as [|n1 IH]; intros n2 s H1 H2; [lia|].
  destruct n2 as [|n2]; [lia|].
  destruct s as [|c s]; [done|].
  cbn [exec_all].
  destruct (group_star (String.length (String c s)) (String c s)) as [m r] eqn:Hg.
  apply group_star_app in Hg.
  destruct m as [|x m].
  - apply IH; simpl in *; lia.
  - f_equal. apply IH.
    + apply (f_equal String.length) in Hg. rewrite str_length_app in Hg.
      simpl in *. lia.
    + apply (f_equal String.length) in Hg. rewrite str_length_app in Hg.
      simpl in *. lia.
Qed.



End ArgRegexFacts.




Lemma parseOneArg_nonempty (arg : string) :
  arg <> EmptyString -> parseOneArg arg <> EmptyString.
Proof.
  intros Hne. unfold parseOneArg.
  destruct (JsString.has_char "=" arg); [|done].
  destruct (JsString.split_first "=" arg) as [flagPart [joined|]]; [|done].
  by destruct flagPart.
Qed.





Example parseArgumentString_samples :
  parseArgumentString
    ("--css=" +:+ String dquote ("my file.css" +:+ String dquote " --toc 'a b'"))
  = ["--css=my file.css"; "--toc"; "'a b'"]
  /\ parseArgumentString ("--css=" +:+ String dquote "my file.css")
     = ["--css="; "my"; "file.css"]
  /\ parseArgumentString "--metadata=title='My Title'"
     = ["--metadata=title='My Title'"]
  /\ parseArgumentString "  " = [].
Proof. repeat split; reflexivity. Qed.

(** * Further properties *)

(** ** The registry and the validator *)

Lemma assoc_In {A : Type} (k : string) (l : list (string * A)) (a : A) :
  assoc k l = Some a -> In (k, a) l.
Proof.
  induction l as [|[k' a'] l IH]; simpl; [done|].
  destruct (String.eqb_spec k' k) as [->|Hne].
  - intros [= ->]. by left.
  - intros H. right. by apply IH.
Qed.

Lemma existsb_eqb_In (s : string) (l : list string) :
  existsb (String.eqb s) l = true <-> In s l.
Proof.
  rewrite existsb_exists. split.
  - intros (x & Hx & Heq). apply String.eqb_eq in Heq. by subst.
  - intros H. exists s. split; [done | apply String.eqb_refl].
Qed.

Lemma registry_rows (name : string) (schema : PandocOptionSchema) :
  schemaOf name = Some schema ->
  (flagOnly schema = true -> type schema = TBoolean)
  /\ (type schema = TChoice -> exists c cs, choices schema = Some (c :: cs)).
Proof.
  intros H. apply assoc_In in H.
  assert (Hall : forallb rowWellFormed PANDOC_OPTIONS = true) by (vm_compute; reflexivity).
  rewrite forallb_forall in Hall. specialize (Hall _ H).
  unfold rowWellFormed in Hall. simpl in Hall.
  apply andb_true_iff in Hall as [Hflag Hchoice]. split.
  - intros Hf. rewrite Hf in Hflag. simpl in Hflag. by destruct (type schema).
  - intros Ht. rewrite Ht in Hchoice.
    destruct (choices schema) as [[|c cs]|]; try discriminate. by exists c, cs.
Qed.

(** X1: the validator reports a message exactly when it reports the value
    invalid. *)
Theorem validation_error_iff_invalid (name : string) (v : value) :
  (isValid (validatePandocOption name v) = true
   <-> error (validatePandocOption name v) = None)
  /\ (isValid (validatePandocOption name v) = false
      <-> exists msg, error (validatePandocOption name v) = Some msg).
Proof.
  assert (H : validatePandocOption name v = valid
              \/ exists msg, validatePandocOption name v = invalid msg).
  { unfold validatePandocOption.
    destruct (schemaOf name) as [schema|]; [|by left].
    destruct (type schema).
    - destruct (flagOnly schema && _); [right; by eexists|].
      destruct (negb _); [right; by eexists | by left].
    - destruct (negb _); [right; by eexists | by left].
    - destruct (match v with VStr s => _ | _ => _ end); [right; by eexists | by left].
    - destruct (choices schema); [|by left].
      destruct (_ || _); [right; by eexists | by left].
    - destruct (negb _); [right; by eexists | by left]. }
  destruct H as [->|[msg ->]]; simpl.
  - split; split; try done. by intros [msg ?].
  - split; split; try done. intros _. by exists msg.
Qed.

(** X2: an option of kind string or file accepts a value exactly when the
    value is a string. *)
Theorem string_kind_accepts_strings (name : string) (schema : PandocOptionSchema)
    (v : value) :
  schemaOf name = Some schema ->
  type schema = TString \/ type schema = TFile ->
  (isValid (validatePandocOption name v) = true <-> exists s, v = VStr s).
Proof.
  intros Hs Ht. unfold validatePandocOption. rewrite Hs.
  assert (Hbody : (if negb (String.eqb (typeof v) "string")
                   then invalid ("Option '" +:+ name +:+ "' expects a string, got '"
                                 +:+ typeof v +:+ "'")
                   else valid).(isValid) = true <-> exists s, v = VStr s).
  { destruct v; simpl; split; try done; try (by intros [? ?]). by eexists. }
  by destruct Ht as [-> | ->].
Qed.

Lemma string_kind_witness :
  isValid (validatePandocOption "template" (VStr "paper.tex")) = true
  <-> exists s, VStr "paper.tex" = VStr s.
Proof.
  apply (string_kind_accepts_strings "template" (mkSchema TFile false None false));
    [reflexivity | by right].
Defined.

(** X3: every option of kind choice has a list of choices, the list is not
    empty, and the option accepts a value exactly when the value is a string
    of that list. *)
Theorem choice_kind_accepts_members (name : string) (schema : PandocOptionSchema) :
  schemaOf name = Some schema -> type schema = TChoice ->
  exists c cs,
    choices schema = Some (c :: cs)
    /\ forall v, isValid (validatePandocOption name v) = true
                 <-> exists s, v = VStr s /\ In s (c :: cs).
Proof.
  intros Hs Ht.
  destruct (registry_rows name schema Hs) as [_ Hc].
  destruct (Hc Ht) as (c & cs & Hcs). exists c, cs. split; [done|].
  intros v. unfold validatePandocOption. rewrite Hs, Ht, Hcs.
  destruct v as [| |b|r|s|items|fields];
    try (simpl; split; [done | by intros (? & ? & _)]).
  cbn [typeof negb orb String.eqb]. simpl negb at 1. cbn [orb].
  destruct (existsb (String.eqb s) (c :: cs)) eqn:Hin; simpl.
  - split; [|done]. intros _. exists s. split; [done|].
    by apply (proj1 (existsb_eqb_In s (c :: cs))).
  - split; [done|]. intros (s' & [= <-] & Hmem).
    apply (proj2 (existsb_eqb_In s (c :: cs))) in Hmem. congruence.
Qed.

Lemma choice_kind_witness :
  exists c cs,
    choices (mkSchema TChoice false (Some ["auto"; "none"; "preserve"]) false)
    = Some (c :: cs)
    /\ forall v, isValid (validatePandocOption "wrap" v) = true
                 <-> exists s, v = VStr s /\ In s (c :: cs).
Proof.
  apply (choice_kind_accepts_members "wrap"); reflexivity.
Defined.

(** X4: a boolean option that is not flag-only accepts a value exactly when
    the value is a boolean, true or false. *)
Theorem plain_boolean_accepts_booleans (name : string) (schema : PandocOptionSchema)
    (v : value) :
  schemaOf name = Some schema -> type schema = TBoolean -> flagOnly schema = false ->
  (isValid (validatePandocOption name v) = true <-> exists b, v = VBool b).
Proof.
  intros Hs Ht Hf. unfold validatePandocOption. rewrite Hs, Ht, Hf.
  destruct v; simpl; split; try done; try (by intros [? ?]). by eexists.
Qed.

Lemma plain_boolean_witness :
  isValid (validatePandocOption "standalone" (VBool false)) = true
  <-> exists b, VBool false = VBool b.
Proof.
  apply (plain_boolean_accepts_booleans "standalone"
           (mkSchema TBoolean false None false)); reflexivity.
Defined.



Lemma skip_sign_cons (c : ascii) (r : string) :
  JsString.skip_sign (String c r)
  = if Ascii.eqb c "+" || Ascii.eqb c "-" then r else String c r.
Proof. destruct c as [[] [] [] [] [] [] [] []]; reflexivity. Qed.

Lemma prefix_app (p s t : string) :
  String.prefix p s = true -> String.prefix p (s +:+ t) = true.
Proof.
  revert s. induction p as [|c p IH]; intros s.
  - intros _. by destruct (s +:+ t).
  - destruct s as [|d s]; simpl; [done|].
    destruct (ascii_dec c d); [apply IH | done].
Qed.

(** a text that [parseFloat] reads as a number still reads as one when more
    text follows it *)
Lemma parseFloat_isNaN_app (s t : string) :
  parseFloat_isNaN s = false -> parseFloat_isNaN (s +:+ t) = false.
Proof.
  unfold parseFloat_isNaN. induction s as [|c s IH]; [done|].
  simpl JsString.trim_start. destruct (JsString.is_space c); [exact IH|].
  rewrite !skip_sign_cons.
  assert (Hkey : forall u,
             negb (JsString.startsWith u "Infinity"
                   || match u with
                      | String c r =>
                          JsString.is_digit c
                          || (Ascii.eqb c "."
                              && match r with
                                 | String d _ => JsString.is_digit d
                                 | EmptyString => false
                                 end)
                      | EmptyString => false
                      end) = false ->
             negb (JsString.startsWith (u +:+ t) "Infinity"
                   || match u +:+ t with
                      | String c r =>
                          JsString.is_digit c
                          || (Ascii.eqb c "."
                              && match r with
                                 | String d _ => JsString.is_digit d
                                 | EmptyString => false
                                 end)
                      | EmptyString => false
                      end) = false).
  { intros u Hu. apply negb_false_iff in Hu. apply negb_false_iff.
    apply orb_true_iff in Hu as [Hu|Hu].
    - unfold JsString.startsWith in *. by rewrite prefix_app.
    - apply orb_true_iff. right.
      destruct u as [|x r]; [done|]. simpl.
      apply orb_true_iff in Hu as [Hd|Hdot]; [by rewrite Hd|].
      apply andb_true_iff in Hdot as [Hx Hr].
      destruct r as [|y r]; [done|]. simpl. rewrite Hx, Hr. apply orb_true_r. }
  destruct (Ascii.eqb c "+" || Ascii.eqb c "-"); intros H.
  - by apply Hkey.
  - by apply (Hkey (String c s)).
Qed.

(** X6: a number option judges a string by its beginning: once a string is
    accepted, it stays accepted with any text appended to it. *)
Theorem number_kind_ignores_trailing_text (name : string) (schema : PandocOptionSchema)
    (s t : string) :
  schemaOf name = Some schema -> type schema = TNumber ->
  isValid (validatePandocOption name (VStr s)) = true ->
  isValid (validatePandocOption name (VStr (s +:+ t))) = true.
Proof.
  intros Hs Ht. unfold validatePandocOption. rewrite Hs, Ht.
  destruct (parseFloat_isNaN s) eqn:Hn; [done|]. intros _.
  by rewrite parseFloat_isNaN_app.
Qed.

Lemma number_kind_trailing_witness :
  isValid (validatePandocOption "toc-depth" (VStr ("3" +:+ " levels"))) = true.
Proof.
  apply (number_kind_ignores_trailing_text "toc-depth"
           (mkSchema TNumber false None false)); reflexivity.
Defined.

(** X7: every option name that the compiler of [main.ts] resolves as a path
    is also in the set of file-valued options that [pandoc-options.ts]
    exports, and the validator accepts every string for it. *)
Theorem resolved_names_validate_strings (name : string) :
  isFilePathArgument name = true ->
  In name FILE_PATH_ARGUMENTS_exported
  /\ forall s, validatePandocOption name (VStr s) = valid.
Proof.
  intros H. apply existsb_eqb_In in H. unfold FILE_PATH_ARGUMENTS in H.
  repeat (destruct H as [<-|H]; [split; [cbv; tauto | intros s; reflexivity]|]).
  destruct H.
Qed.

Lemma resolved_names_witness :
  In "bibliography" FILE_PATH_ARGUMENTS_exported
  /\ forall s, validatePandocOption "bibliography" (VStr s) = valid.
Proof. apply resolved_names_validate_strings. reflexivity. Defined.

(** ** The compiler loop, continued *)

Section CompilerAlgebra.

Context (host : Host) (dir vault : string).

(** the cleaned metadata is built from the fields alone *)
Lemma cleaned_fold (md : list (string * value)) (acc : Compiled) :
  cleanedMetadata (List.fold_left (compileField host dir vault) md acc)
  = List.fold_left
      (fun (m : gmap string value) (field : string * value) =>
         if JsString.startsWith field.1 "pandoc-" then m
         else if String.eqb field.1 "__proto__" then m
         else <[field.1 := field.2]> m)
      md (cleanedMetadata acc).
Proof.
  revert acc. induction md as [|[key v] md IH]; intros acc; simpl; [done|].
  rewrite IH.
  by destruct (JsString.startsWith key "pandoc-"), (String.eqb key "__proto__").
Qed.

Lemma copy_fold_union (md : list (string * value)) (m1 m2 : gmap string value) :
  List.fold_left
    (fun (m : gmap string value) (field : string * value) =>
       if JsString.startsWith field.1 "pandoc-" then m
         else if String.eqb field.1 "__proto__" then m
         else <[field.1 := field.2]> m)
    md (m1 ∪ m2)
  = List.fold_left
      (fun (m : gmap string value) (field : string * value) =>
         if JsString.startsWith field.1 "pandoc-" then m
         else if String.eqb field.1 "__proto__" then m
         else <[field.1 := field.2]> m)
      md m1 ∪ m2.
Proof.
  revert m1. induction md as [|[key v] md IH]; intros m1; simpl; [done|].
  destruct (JsString.startsWith key "pandoc-"); [apply IH|].
  destruct (String.eqb key "__proto__"); [apply IH|].
  rewrite <- IH. by rewrite insert_union_l.
Qed.

Lemma copy_fold_filter (md : list (string * value)) (m : gmap string value) :
  List.fold_left
    (fun (m : gmap string value) (field : string * value) =>
       if JsString.startsWith field.1 "pandoc-" then m
         else if String.eqb field.1 "__proto__" then m
         else <[field.1 := field.2]> m)
    (List.filter (fun field => negb (JsString.startsWith field.1 "pandoc-")) md) m
  = List.fold_left
      (fun (m : gmap string value) (field : string * value) =>
         if JsString.startsWith field.1 "pandoc-" then m
         else if String.eqb field.1 "__proto__" then m
         else <[field.1 := field.2]> m)
      md m.
Proof.
  revert m. induction md as [|[key v] md IH]; intros m; simpl; [done|].
  destruct (JsString.startsWith key "pandoc-") eqn:Hk; simpl; [apply IH|].
  rewrite Hk. apply IH.
Qed.

Lemma copy_fold_directives (md : list (string * value)) (m : gmap string value) :
  List.fold_left
    (fun (m : gmap string value) (field : string * value) =>
       if JsString.startsWith field.1 "pandoc-" then m
         else if String.eqb field.1 "__proto__" then m
         else <[field.1 := field.2]> m)
    (List.filter (fun field => JsString.startsWith field.1 "pandoc-") md) m
  = m.
Proof.
  revert m. induction md as [|[key v] md IH]; intros m; simpl; [done|].
  destruct (JsString.startsWith key "pandoc-") eqn:Hk; simpl; [|apply IH].
  rewrite Hk. apply IH.
Qed.

Lemma fieldArgs_filter (md : list (string * value)) :
  List.flat_map (fieldArgs host dir vault)
    (List.filter (fun field => JsString.startsWith field.1 "pandoc-") md)
  = List.flat_map (fieldArgs host dir vault) md.
Proof.
  induction md as [|[key v] md IH]; simpl; [done|].
  unfold fieldArgs at 2. simpl.
  destruct (JsString.startsWith key "pandoc-") eqn:Hk; simpl; [|exact IH].
  unfold fieldArgs at 1. simpl. rewrite Hk. by rewrite IH.
Qed.

Lemma fieldArgs_others (md : list (string * value)) :
  List.flat_map (fieldArgs host dir vault)
    (List.filter (fun field => negb (JsString.startsWith field.1 "pandoc-")) md)
  = [].
Proof.
  induction md as [|[key v] md IH]; simpl; [done|].
  destruct (JsString.startsWith key "pandoc-") eqn:Hk; simpl; [exact IH|].
  unfold fieldArgs at 1. simpl. by rewrite Hk.
Qed.

End CompilerAlgebra.

(** X8: the two results of the compiler come from disjoint parts of the
    header. The arguments are those of the directive fields alone, the
    cleaned metadata is that of the other fields alone; fields that are not
    directives yield no argument, and directives leave the cleaned metadata
    empty. *)
Theorem compiler_partitions_header (host : Host) (dir vault : string)
    (metadata : list (string * value)) :
  let directives :=
    List.filter (fun field => JsString.startsWith field.1 "pandoc-") metadata in
  let others :=
    List.filter (fun field => negb (JsString.startsWith field.1 "pandoc-")) metadata in
  cliArgs (convertYamlToPandocArgs host metadata dir vault)
  = cliArgs (convertYamlToPandocArgs host directives dir vault)
  /\ cleanedMetadata (convertYamlToPandocArgs host metadata dir vault)
     = cleanedMetadata (convertYamlToPandocArgs host others dir vault)
  /\ cliArgs (convertYamlToPandocArgs host others dir vault) = []
  /\ cleanedMetadata (convertYamlToPandocArgs host directives dir vault) = ∅.
Proof.
  intros directives others. unfold directives, others.
  rewrite !cliArgs_compile. unfold convertYamlToPandocArgs. rewrite !cleaned_fold.
  simpl. split; [by rewrite fieldArgs_filter|].
  split; [by rewrite copy_fold_filter|].
  split; [apply fieldArgs_others | apply copy_fold_directives].
Qed.

(** X9: compiling a header made of two parts gives the arguments of the
    first part followed by those of the second, and the cleaned metadata of
    both parts, the second part deciding where both have a key. *)
Theorem compiler_of_concatenation (host : Host) (dir vault : string)
    (md1 md2 : list (string * value)) :
  cliArgs (convertYamlToPandocArgs host (md1 ++ md2) dir vault)
  = cliArgs (convertYamlToPandocArgs host md1 dir vault)
    ++ cliArgs (convertYamlToPandocArgs host md2 dir vault)
  /\ cleanedMetadata (convertYamlToPandocArgs host (md1 ++ md2) dir vault)
     = cleanedMetadata (convertYamlToPandocArgs host md2 dir vault)
       ∪ cleanedMetadata (convertYamlToPandocArgs host md1 dir vault).
Proof.
  split; [apply cliArgs_app|].
  unfold convertYamlToPandocArgs. rewrite !cleaned_fold. simpl.
  rewrite fold_left_app. rewrite <- copy_fold_union. by rewrite (left_id_L ∅ (∪)).
Qed.

(** X10: a directive whose value is null, undefined, or an array with
    nothing but null and undefined elements (the empty array among them)
    contributes no argument: the arguments are those of the header without
    it. *)
Theorem absent_values_yield_nothing (host : Host) (dir vault : string)
    (pre post : list (string * value)) (name : string) (v : value) :
  v = VNull \/ v = VUndefined
  \/ (exists items, v = VArr items /\ List.forallb nullish items = true) ->
  cliArgs (convertYamlToPandocArgs host (pre ++ ("pandoc-" +:+ name, v) :: post) dir vault)
  = cliArgs (convertYamlToPandocArgs host (pre ++ post) dir vault).
Proof.
  intros Hv. rewrite cliArgs_around, cliArgs_app.
  assert (Hnone : directiveArgs host ("pandoc-" +:+ name) v dir vault = []).
  { destruct Hv as [->|[->|(items & -> & Hall)]]; [done|done|].
    unfold directiveArgs.
    assert (Hf : List.filter (fun item => negb (nullish item)) items = []).
    { induction items as [|x xs IH]; simpl in *; [done|].
      apply andb_true_iff in Hall as [Hx Hxs]. rewrite Hx. simpl. by apply IH. }
    by rewrite Hf. }
  by rewrite Hnone.
Qed.

Lemma absent_values_witness :
  cliArgs (convertYamlToPandocArgs (Posix.host "/" [] None)
             ([("pandoc-toc", VBool true)]
              ++ ("pandoc-" +:+ "css", VArr [VNull; VUndefined])
              :: [("pandoc-citeproc", VBool true)])
             "/vault/notes" "/vault")
  = cliArgs (convertYamlToPandocArgs (Posix.host "/" [] None)
               ([("pandoc-toc", VBool true)] ++ [("pandoc-citeproc", VBool true)])
               "/vault/notes" "/vault").
Proof.
  apply absent_values_yield_nothing. right. right.
  exists [VNull; VUndefined]. split; reflexivity.
Defined.

(** ** The path resolver, continued *)

Lemma candidate_is_resolved (host : Host) (filePath dir vault p : string) :
  In p (candidateLocations host filePath dir vault) ->
  exists args, p = path_resolve host args.
Proof.
  unfold candidateLocations. intros H.
  apply in_app_or in H as [H|H].
  { destruct H as [<-|[<-|[]]]; by eexists. }
  apply in_app_or in H as [H|H].
  - destruct (templateFolderSet host) as [folder|]; [|done].
    destruct H as [<-|[]]. destruct (path_isAbsolute host folder); by eexists.
  - apply in_map_iff in H as (d & <- & _). by eexists.
Qed.

(** X11: the resolver never invents a path: it returns the reference it was
    given, or one of its candidate locations at which the file exists. *)
Theorem resolver_returns_reference_or_existing_file (host : Host)
    (filePath dir vault : string) :
  resolveFilePath host filePath dir vault = filePath
  \/ (In (resolveFilePath host filePath dir vault)
         (candidateLocations host filePath dir vault)
      /\ fileExists host (resolveFilePath host filePath dir vault) = true).
Proof.
  destruct (path_isAbsolute host filePath) eqn:Habs.
  - left. unfold resolveFilePath. by rewrite Habs.
  - rewrite resolveFilePath_first by done.
    destruct (firstExisting host (candidateLocations host filePath dir vault))
      as [p|] eqn:H; [|by left].
    right. apply firstExisting_Some in H as (before & after & Heq & _ & Hp).
    change (default filePath (Some p)) with p.
    split; [|done]. rewrite Heq. apply in_or_app. right. by left.
Qed.

(** X12: where [path.resolve] yields absolute paths, as Node's does,
    resolving is idempotent: a resolved reference resolves to itself. *)
Theorem resolver_idempotent (host : Host) (filePath dir vault : string) :
  (forall args, path_isAbsolute host (path_resolve host args) = true) ->
  resolveFilePath host (resolveFilePath host filePath dir vault) dir vault
  = resolveFilePath host filePath dir vault.
Proof.
  intros Hres.
  destruct (path_isAbsolute host filePath) eqn:Habs.
  - unfold resolveFilePath. by rewrite !Habs.
  - rewrite (resolveFilePath_first host filePath) by done.
    destruct (firstExisting host (candidateLocations host filePath dir vault))
      as [p|] eqn:H.
    + change (default filePath (Some p)) with p.
      apply firstExisting_Some in H as (before & after & Heq & _ & _).
      assert (Hin : In p (candidateLocations host filePath dir vault)).
      { rewrite Heq. apply in_or_app. right. by left. }
      apply candidate_is_resolved in Hin as [args ->].
      unfold resolveFilePath. by rewrite Hres.
    + change (default filePath None) with filePath.
      rewrite resolveFilePath_first by done. by rewrite H.
Qed.

Lemma posix_resolve_absolute (cwd : string) (args : list string) :
  Posix.isAbsolute (Posix.resolve cwd args) = true.
Proof.
  unfold Posix.resolve. by destruct (Posix.joinUntilAbsolute _ _).
Qed.

Lemma resolver_idempotent_witness :
  resolveFilePath (Posix.host "/" ["/vault/assets/a.css"] None)
    (resolveFilePath (Posix.host "/" ["/vault/assets/a.css"] None)
       "a.css" "/vault/notes" "/vault")
    "/vault/notes" "/vault"
  = resolveFilePath (Posix.host "/" ["/vault/assets/a.css"] None)
      "a.css" "/vault/notes" "/vault".
Proof. apply resolver_idempotent. intros args. apply posix_resolve_absolute. Defined.

(** An empty setting: a template folder set to the empty text counts as no template
    folder: the resolver answers as if the setting were absent. *)
Theorem empty_template_folder_is_unset
    (isAbsolute : string -> bool) (resolve : list string -> string)
    (exists_ : string -> bool) (filePath dir vault : string) :
  resolveFilePath (mkHost isAbsolute resolve exists_ (Some EmptyString)) filePath dir vault
  = resolveFilePath (mkHost isAbsolute resolve exists_ None) filePath dir vault
  /\ candidateLocations (mkHost isAbsolute resolve exists_ (Some EmptyString))
       filePath dir vault
     = candidateLocations (mkHost isAbsolute resolve exists_ None) filePath dir vault.
Proof. split; reflexivity. Qed.

(** ** The extra-argument parser, continued *)

Lemma space_not_quote (c : ascii) :
  JsString.is_space c = true -> ArgRegex.is_quote c = false.
Proof. destruct c as [[] [] [] [] [] [] [] []]; try discriminate; reflexivity. Qed.

Lemma group_space (c : ascii) (s : string) :
  JsString.is_space c = true -> ArgRegex.group (String c s) = None.
Proof.
  intros Hc. unfold ArgRegex.group, ArgRegex.plain.
  by rewrite Hc, (space_not_quote c Hc).
Qed.

Lemma exec_all_skip_space (n : nat) (c : ascii) (s : string) :
  JsString.is_space c = true ->
  ArgRegex.exec_all (S n) (String c s) = ArgRegex.exec_all n s.
Proof.
  intros Hc. cbn [ArgRegex.exec_all String.length ArgRegex.group_star].
  by rewrite group_space.
Qed.

Lemma parse_leading_space (c : ascii) (rest : string) :
  JsString.is_space c = true ->
  parseArgumentString (String c rest) = parseArgumentString rest.
Proof.
  intros Hc. unfold parseArgumentString. cbn [String.length].
  by rewrite exec_all_skip_space.
Qed.

Lemma exec_all_nonempty (n : nat) (s : string) :
  Forall (fun m => m <> EmptyString) (ArgRegex.exec_all n s).
Proof.
  revert s. induction n as [|n IH]; intros s; [constructor|].
  destruct s as [|c s]; [constructor|]. cbn [ArgRegex.exec_all].
  destruct (ArgRegex.group_star _ _) as [[|x m] r]; [apply IH|].
  constructor; [done | apply IH].
Qed.

Lemma parseArgumentString_nonempty (s : string) :
  Forall (fun tok => JsString.nonempty tok = true) (parseArgumentString s).
Proof.
  unfold parseArgumentString.
  pose proof (exec_all_nonempty (S (String.length s)) s) as H.
  induction H as [|m ms Hm _ IH]; [constructor|].
  cbn [List.map]. constructor; [|exact IH].
  apply parseOneArg_nonempty in Hm. by destruct (parseOneArg m).
Qed.

(** X13: the parser never yields an empty token, so the filter that [pandoc]
    applies to the parsed extra parameters removes nothing. *)
Theorem parsed_tokens_are_never_empty (extraParams : list string) :
  parsedArgs extraParams = List.flat_map parseArgumentString extraParams
  /\ forall tok, In tok (parsedArgs extraParams) -> tok <> EmptyString.
Proof.
  assert (Hall : Forall (fun tok => JsString.nonempty tok = true)
                        (List.flat_map parseArgumentString extraParams)).
  { induction extraParams as [|p ps IH]; simpl; [constructor|].
    apply Forall_app. split; [apply parseArgumentString_nonempty | exact IH]. }
  assert (Heq : parsedArgs extraParams = List.flat_map parseArgumentString extraParams).
  { unfold parsedArgs. induction Hall as [|tok toks Htok _ IH]; [done|].
    cbn [List.filter]. rewrite Htok. by rewrite IH. }
  split; [exact Heq|].
  intros tok Hin. rewrite Heq in Hin.
  rewrite Forall_forall in Hall. rewrite <- list_elem_of_In in Hin.
  specialize (Hall _ Hin). by destruct tok.
Qed.

(** X14: white space in front of an extra-argument string is ignored, and a
    string of nothing but white space, the empty string among them, yields
    no token. *)
Theorem leading_white_space_is_ignored (blank rest : string) :
  JsString.all_chars JsString.is_space blank = true ->
  parseArgumentString (blank +:+ rest) = parseArgumentString rest
  /\ parseArgumentString blank = [].
Proof.
  intros Hb. induction blank as [|c blank IH]; [done|].
  simpl in Hb. apply andb_true_iff in Hb as [Hc Hb].
  destruct (IH Hb) as [IH1 IH2].
  change (String c blank +:+ rest) with (String c (blank +:+ rest)).
  by rewrite !parse_leading_space.
Qed.

Lemma leading_white_space_witness :
  parseArgumentString ("  " +:+ "--toc") = parseArgumentString "--toc"
  /\ parseArgumentString "  " = [].
Proof. apply leading_white_space_is_ignored. reflexivity. Defined.

Lemma span_plain_all (w : string) :
  JsString.all_chars ArgRegex.plain w = true ->
  ArgRegex.span_plain w = (w, EmptyString).
Proof.
  induction w as [|c w IH]; simpl; [done|].
  intros H. apply andb_true_iff in H as [Hc Hw]. by rewrite Hc, IH.
Qed.

Lemma split_first_join (sep : ascii) (s h t : string) :
  JsString.split_first sep s = (h, Some t) -> s = h +:+ String sep t.
Proof.
  revert h. induction s as [|c s IH]; intros h; simpl; [done|].
  destruct (Ascii.eqb_spec c sep) as [->|Hne].
  - by intros [= <- <-].
  - destruct (JsString.split_first sep s) as [h' t'] eqn:Hs.
    intros [= <- ->]. simpl. f_equal. by apply IH.
Qed.

Lemma plain_not_quoted (t : string) (q : ascii) :
  JsString.all_chars ArgRegex.plain t = true -> ArgRegex.is_quote q = true ->
  JsString.startsWith t (String q EmptyString) = false.
Proof.
  intros Ht Hq. destruct t as [|x t]; [done|].
  simpl in Ht. apply andb_true_iff in Ht as [Hx _].
  unfold JsString.startsWith. simpl.
  destruct (ascii_dec q x) as [->|]; [|done].
  rewrite (ArgRegexFacts.quote_not_plain x Hq) in Hx. discriminate.
Qed.

(** a word without quotes is handed on as it is written *)
Lemma parseOneArg_plain (w : string) :
  JsString.all_chars ArgRegex.plain w = true -> parseOneArg w = w.
Proof.
  intros Hw. unfold parseOneArg.
  destruct (JsString.has_char "=" w); [|done].
  destruct (JsString.split_first "=" w) as [h [t|]] eqn:Hs; [|done].
  apply split_first_join in Hs. subst w.
  rewrite all_chars_app in Hw. apply andb_true_iff in Hw as [_ Ht].
  simpl in Ht.
  rewrite (plain_not_quoted t dquote), (plain_not_quoted t squote) by done.
  reflexivity.
Qed.

Lemma exec_all_word (n : nat) (w : string) (c : ascii) (rest : string) :
  JsString.all_chars ArgRegex.plain w = true -> w <> EmptyString ->
  JsString.is_space c = true ->
  ArgRegex.exec_all (S n) (w +:+ String c rest)
  = w :: ArgRegex.exec_all n (String c rest).
Proof.
  intros Hw Hne Hc. destruct w as [|x w]; [done|].
  simpl in Hw. apply andb_true_iff in Hw as [Hx Hw].
  change (String x w +:+ String c rest) with (String x (w +:+ String c rest)).
  cbn [ArgRegex.exec_all String.length ArgRegex.group_star ArgRegex.group].
  rewrite Hx.
  change (String x (w +:+ String c rest)) with (String x w +:+ String c rest).
  rewrite ArgRegexFacts.span_plain_run.
  - assert (Hstop : forall k, ArgRegex.group_star k (String c rest)
                              = (EmptyString, String c rest)).
    { intros [|k]; [done|]. cbn [ArgRegex.group_star]. by rewrite group_space. }
    rewrite Hstop. by rewrite str_app_nil_r.
  - simpl. by rewrite Hx, Hw.
  - unfold ArgRegex.plain. by rewrite Hc.
Qed.

(** X15: in an extra-argument string a word without white space and quotes
    is one token, exactly as written (an equals sign in it changes nothing),
    and the text after the white space that ends it is parsed on its own. *)
Theorem plain_word_is_one_token (w : string) :
  JsString.all_chars ArgRegex.plain w = true -> w <> EmptyString ->
  parseArgumentString w = [w]
  /\ forall c rest, JsString.is_space c = true ->
       parseArgumentString (w +:+ String c rest) = w :: parseArgumentString rest.
Proof.
  intros Hw Hne. split.
  - unfold parseArgumentString.
    assert (Hexec : ArgRegex.exec_all (S (String.length w)) w = [w]).
    { destruct w as [|x w']; [done|].
      pose proof (span_plain_all _ Hw) as Hrun.
      pose proof Hw as Hpx. simpl in Hpx. apply andb_true_iff in Hpx as [Hpx _].
      cbn [ArgRegex.exec_all String.length ArgRegex.group_star ArgRegex.group].
      rewrite Hpx, Hrun.
      assert (Hend : forall k, ArgRegex.group_star k EmptyString
                               = (EmptyString, EmptyString)) by by intros [|k].
      rewrite Hend, str_app_nil_r. reflexivity. }
    rewrite Hexec. cbn [List.map]. by rewrite parseOneArg_plain.
  - intros c rest Hc. rewrite <- (parse_leading_space c rest Hc).
    unfold parseArgumentString.
    rewrite exec_all_word by done. cbn [List.map].
    rewrite parseOneArg_plain by done. f_equal.
    f_equal. apply ArgRegexFacts.exec_all_fuel.
    + rewrite str_length_app. destruct w; [done|]. simpl. lia.
    + lia.
Qed.

Lemma plain_word_witness :
  parseArgumentString "--toc-depth=2" = ["--toc-depth=2"]
  /\ forall c rest, JsString.is_space c = true ->
       parseArgumentString ("--toc-depth=2" +:+ String c rest)
       = "--toc-depth=2" :: parseArgumentString rest.
Proof. apply plain_word_is_one_token; [reflexivity | discriminate]. Defined.

(** ** The argument vector, continued *)

Lemma if_app (b : bool) (A X : list string) :
  (if b then A ++ X else A) = A ++ (if b then X else []).
Proof. destruct b; [done | by rewrite app_nil_r]. Qed.

Lemma if_negb_app (b : bool) (A X Y : list string) :
  (if negb b then A ++ X else A ++ Y) = A ++ (if b then Y else X).
Proof. by destruct b. Qed.

Lemma opt_pair_app (o : option string) (k : string) (A : list string) :
  match o with Some f => A ++ [k; f] | None => A end
  = A ++ match o with Some f => [k; f] | None => [] end.
Proof. destruct o; [done | by rewrite app_nil_r]. Qed.

Lemma opt_list_app (o : option (list string)) (A : list string) :
  match o with Some ds => A ++ ds | None => A end
  = A ++ match o with Some ds => ds | None => [] end.
Proof. destruct o; [done | by rewrite app_nil_r]. Qed.

Lemma opt_parsed_app (o : option (list string)) (A : list string) :
  match o with Some ps => A ++ parsedArgs ps | None => A end
  = A ++ match o with Some ps => parsedArgs ps | None => [] end.
Proof. destruct o; [done | by rewrite app_nil_r]. Qed.

Lemma engine_app (pdf user lua xe : bool) (A L X : list string) :
  (if pdf
   then if negb user
        then if lua then A ++ L else if xe then A ++ X else A
        else A
   else A)
  = A ++ (if pdf && negb user
          then if lua then L else if xe then X else []
          else []).
Proof. destruct pdf, user, lua, xe; simpl; by rewrite ?app_nil_r. Qed.

(** the vector, block by block *)
Lemma pandocArgs_layout (lookpath : string -> bool)
    (input : PandocInput) (output : PandocOutput) (extraParams : option (list string)) :
  pandocArgs lookpath input output extraParams
  = match truthy (in_format input) with Some f => ["--from"; f] | None => [] end
    ++ match truthy (out_format output) with Some f => ["--to"; f] | None => [] end
    ++ (if needsStandaloneFlag output then ["-s"] else [])
    ++ ["-o"; if String.eqb (out_file output) "STDOUT" then "-" else out_file output]
    ++ (if formatIs output "pdf"
           && negb (mentionsPdfEngine extraParams
                    || mentionsPdfEngine (documentArgs input))
        then if lookpath "lualatex" then ["--pdf-engine=lualatex"]
             else if lookpath "xelatex" then ["--pdf-engine=xelatex"] else []
        else [])
    ++ (if negb (String.eqb (in_file input) "STDIN") then [in_file input] else [])
    ++ match truthy (metadataFile input) with
       | Some f => ["--metadata-file"; f]
       | None => []
       end
    ++ match extraParams with Some ps => parsedArgs ps | None => [] end
    ++ match documentArgs input with Some ds => ds | None => [] end.
Proof.
  unfold pandocArgs. cbv zeta.
  rewrite opt_list_app, opt_parsed_app, opt_pair_app, if_app, engine_app.
  rewrite if_negb_app, if_app, opt_pair_app, opt_pair_app.
  rewrite app_nil_l, <- !app_assoc.
  by destruct (String.eqb (out_file output) "STDOUT").
Qed.

(** X16: [lookpath] matters only for PDF output without an engine named by
    the user: for any other output format, and whenever an extra parameter or
    a per-document argument mentions [--pdf-engine], the argument vector is
    the same whatever programs are installed. *)
Theorem engine_probe_only_for_pdf_without_user_engine
    (lookpath1 lookpath2 : string -> bool)
    (input : PandocInput) (output : PandocOutput) (extraParams : option (list string)) :
  formatIs output "pdf" = false
  \/ mentionsPdfEngine extraParams = true
  \/ mentionsPdfEngine (documentArgs input) = true ->
  pandocArgs lookpath1 input output extraParams
  = pandocArgs lookpath2 input output extraParams.
Proof.
  intros H. rewrite !pandocArgs_layout.
  assert (Hoff : formatIs output "pdf"
                 && negb (mentionsPdfEngine extraParams
                          || mentionsPdfEngine (documentArgs input)) = false).
  { destruct H as [->|[->| ->]]; [done| |]; simpl.
    - apply andb_false_r.
    - rewrite orb_true_r. apply andb_false_r. }
  by rewrite Hoff.
Qed.

Lemma engine_probe_witness :
  pandocArgs (fun _ => true)
    (mkInput "/vault/a.md" None None None None None "/vault"
             (Some ["--pdf-engine=xelatex"]))
    (mkOutput "/vault/a.pdf" (Some "pdf")) None
  = pandocArgs (fun _ => false)
      (mkInput "/vault/a.md" None None None None None "/vault"
               (Some ["--pdf-engine=xelatex"]))
      (mkOutput "/vault/a.pdf" (Some "pdf")) None.
Proof.
  apply engine_probe_only_for_pdf_without_user_engine. right. right. reflexivity.
Defined.

(** X17: for PDF output without an engine named by the user, the vector
    carries [--pdf-engine=lualatex] when lualatex is installed, whether or
    not xelatex is, and [--pdf-engine=xelatex] when only xelatex is. *)
Theorem default_pdf_engine (lookpath : string -> bool)
    (input : PandocInput) (output : PandocOutput) (extraParams : option (list string)) :
  formatIs output "pdf" = true ->
  mentionsPdfEngine extraParams = false ->
  mentionsPdfEngine (documentArgs input) = false ->
  (lookpath "lualatex" = true ->
   In "--pdf-engine=lualatex" (pandocArgs lookpath input output extraParams))
  /\ (lookpath "lualatex" = false -> lookpath "xelatex" = true ->
      In "--pdf-engine=xelatex" (pandocArgs lookpath input output extraParams)).
Proof.
  intros Hpdf He Hd. rewrite pandocArgs_layout, Hpdf, He, Hd.
  cbn [orb negb andb].
  split.
  - intros ->. do 4 (apply in_or_app; right). apply in_or_app. left. by left.
  - intros -> ->. do 4 (apply in_or_app; right). apply in_or_app. left. by left.
Qed.

Lemma default_pdf_engine_witness :
  In "--pdf-engine=lualatex"
     (pandocArgs (fun _ => true)
        (mkInput "/vault/a.md" (Some "markdown") None None None None "/vault" None)
        (mkOutput "/vault/a.pdf" (Some "pdf")) (Some ["--toc"])).
Proof.
  destruct (default_pdf_engine (fun _ => true)
              (mkInput "/vault/a.md" (Some "markdown") None None None None "/vault" None)
              (mkOutput "/vault/a.pdf" (Some "pdf")) (Some ["--toc"])
              eq_refl eq_refl eq_refl) as [H _].
  apply H. reflexivity.
Defined.

(** X18: every argument vector names its output: it holds [-o] followed by
    the output file, or by a dash when the output is STDOUT, and before
    these two tokens only the format options and [-s] stand, at most five
    tokens. *)
Theorem output_is_always_named (lookpath : string -> bool)
    (input : PandocInput) (output : PandocOutput) (extraParams : option (list string)) :
  exists before after,
    pandocArgs lookpath input output extraParams
    = before ++ "-o" :: (if String.eqb (out_file output) "STDOUT"
                         then "-" else out_file output) :: after
    /\ List.length before <= 5
    /\ forall tok, In tok before ->
         tok = "--from" \/ tok = "--to" \/ tok = "-s"
         \/ Some tok = in_format input \/ Some tok = out_format output.
Proof.
  rewrite pandocArgs_layout.
  match goal with
  | |- exists before after, ?F ++ ?T ++ ?S ++ [_; _] ++ ?R = _ /\ _ =>
      exists (F ++ T ++ S), R
  end.
  split; [by rewrite <- !app_assoc|].
  assert (Htruthy : forall o f, truthy o = Some f -> o = Some f).
  { intros [[|c s]|] f; simpl; congruence. }
  destruct (truthy (in_format input)) as [f1|] eqn:H1;
    destruct (truthy (out_format output)) as [f2|] eqn:H2;
    destruct (needsStandaloneFlag output);
    try apply Htruthy in H1; try apply Htruthy in H2;
    (split; [simpl; lia|]); intros tok Hin; simpl in Hin;
    intuition (subst; auto).
Qed.

Lemma output_is_always_named_witness :
  exists before after,
    pandocArgs (fun _ => false)
      (mkInput "STDIN" (Some "html") (Some "<p>x</p>") None None None "/vault" None)
      (mkOutput "STDOUT" (Some "latex")) None
    = before ++ "-o" :: "-" :: after
    /\ List.length before <= 5
    /\ forall tok, In tok before ->
         tok = "--from" \/ tok = "--to" \/ tok = "-s"
         \/ Some tok = Some "html" \/ Some tok = Some "latex".
Proof.
  apply (output_is_always_named (fun _ => false)
           (mkInput "STDIN" (Some "html") (Some "<p>x</p>") None None None "/vault" None)
           (mkOutput "STDOUT" (Some "latex")) None).
Defined.

(** ** The binary map and the export check *)

Lemma truthy_nonempty (f : string) : f <> EmptyString -> truthy (Some f) = Some f.
Proof. by destruct f. Qed.

(** X19: the binary map is filled once: after [createBinaryMap] the map
    counts as initialised, and a later call changes nothing, whatever the
    settings and the installed programs are by then. *)
Theorem binary_map_is_filled_once
    (settingsPandoc settingsPdflatex foundPandoc foundPdflatex : option string)
    (settingsPandoc' settingsPdflatex' foundPandoc' foundPdflatex' : option string)
    (st : PluginState) :
  binaryMapInitialized
    (createBinaryMap settingsPandoc settingsPdflatex foundPandoc foundPdflatex st) = true
  /\ createBinaryMap settingsPandoc' settingsPdflatex' foundPandoc' foundPdflatex'
       (createBinaryMap settingsPandoc settingsPdflatex foundPandoc foundPdflatex st)
     = createBinaryMap settingsPandoc settingsPdflatex foundPandoc foundPdflatex st.
Proof.
  unfold createBinaryMap.
  destruct (binaryMapInitialized st) eqn:Hi.
  - by rewrite Hi.
  - by destruct (isTruthy (jsOr settingsPandoc foundPandoc)).
Qed.

(** X20: once Pandoc has been found this is never forgotten, and whenever
    it is marked as found a path to it is cached. Both hold of a new plugin
    and are kept by [createBinaryMap] and by the export check. *)
Theorem pandoc_once_found_stays_found
    (settingsPandoc settingsPdflatex foundPandoc foundPdflatex : option string)
    (file : option string) (format : string) (st : PluginState) :
  let cached s := everFoundPandoc s = true -> isTruthy (cachedPandocPath s) = true in
  let after_map :=
    createBinaryMap settingsPandoc settingsPdflatex foundPandoc foundPdflatex st in
  let after_check := snd (currentFileCanBeExported st file format) in
  cached initialState
  /\ (cached st -> cached after_map)
  /\ (cached st -> cached after_check)
  /\ (everFoundPandoc st = true -> everFoundPandoc after_map = true)
  /\ (everFoundPandoc st = true -> everFoundPandoc after_check = true).
Proof.
  intros cached after_map after_check. unfold cached, after_map, after_check.
  split; [done|].
  assert (Hcheck : snd (currentFileCanBeExported st file format) = st
                   \/ snd (currentFileCanBeExported st file format)
                      = mkState (cachedPandocPath st) (features_pdflatex st)
                                (binaryMapInitialized st) (everFoundPandoc st)
                                (cachedPandocPath st)).
  { unfold currentFileCanBeExported.
    destruct (truthy file); [|by left].
    repeat (match goal with |- context [if ?b then _ else _] => destruct b end);
      simpl; auto. }
  unfold createBinaryMap.
  repeat split.
  - destruct (binaryMapInitialized st); [done|].
    destruct (isTruthy (jsOr settingsPandoc foundPandoc)) eqn:Ht; simpl; auto.
  - destruct Hcheck as [-> | ->]; simpl; auto.
  - destruct (binaryMapInitialized st); [done|].
    destruct (isTruthy (jsOr settingsPandoc foundPandoc)); simpl; auto.
  - destruct Hcheck as [-> | ->]; simpl; auto.
Qed.

(** X21: an export is only ever offered for an open file whose name ends
    with one of the input extensions, whatever the format and the state. *)
Theorem export_needs_a_supported_file (st : PluginState) (file : option string)
    (format : string) :
  fst (currentFileCanBeExported st file format) = true ->
  exists f ext,
    file = Some f /\ f <> EmptyString
    /\ In ext inputExtensions /\ JsString.endsWith f ext = true.
Proof.
  unfold currentFileCanBeExported.
  destruct file as [[|c f]|]; simpl truthy; cbv iota; try discriminate.
  destruct (existsb (JsString.endsWith (String c f)) inputExtensions) eqn:He;
    [|discriminate].
  intros _. apply existsb_exists in He as (ext & Hin & Hends).
  by exists (String c f), ext.
Qed.

Lemma export_needs_a_supported_file_witness :
  exists f ext,
    Some "/vault/notes/a.md" = Some f /\ f <> EmptyString
    /\ In ext inputExtensions /\ JsString.endsWith f ext = true.
Proof.
  apply (export_needs_a_supported_file initialState (Some "/vault/notes/a.md") "docx").
  reflexivity.
Defined.

(** X22: until the binary map is initialised the check offers every format
    for a supported file and leaves the state as it is. *)
Theorem before_initialisation_everything_is_offered (st : PluginState)
    (f ext format : string) :
  binaryMapInitialized st = false ->
  f <> EmptyString -> In ext inputExtensions -> JsString.endsWith f ext = true ->
  currentFileCanBeExported st (Some f) format = (true, st).
Proof.
  intros Hi Hf Hin Hends. unfold currentFileCanBeExported.
  rewrite (truthy_nonempty f Hf).
  assert (He : existsb (JsString.endsWith f) inputExtensions = true).
  { apply existsb_exists. by exists ext. }
  by rewrite He, Hi.
Qed.

Lemma before_initialisation_witness :
  currentFileCanBeExported initialState (Some "/vault/notes/a.md") "pdf"
  = (true, initialState).
Proof.
  apply (before_initialisation_everything_is_offered initialState
           "/vault/notes/a.md" "md" "pdf");
    [reflexivity | discriminate | cbv; tauto | reflexivity].
Defined.

(** X23: when [createBinaryMap] finds Pandoc, in the settings or on the
    PATH, every format is offered for a supported file afterwards, PDF
    included, whether or not pdflatex was found. *)
Theorem with_pandoc_every_format_is_offered
    (settingsPandoc settingsPdflatex foundPandoc foundPdflatex : option string)
    (st : PluginState) (f ext format : string) :
  binaryMapInitialized st = false ->
  isTruthy (jsOr settingsPandoc foundPandoc) = true ->
  f <> EmptyString -> In ext inputExtensions -> JsString.endsWith f ext = true ->
  fst (currentFileCanBeExported
         (createBinaryMap settingsPandoc settingsPdflatex foundPandoc foundPdflatex st)
         (Some f) format) = true.
Proof.
  intros Hi Hp Hf Hin Hends. unfold createBinaryMap. rewrite Hi, Hp.
  unfold currentFileCanBeExported. rewrite (truthy_nonempty f Hf).
  assert (He : existsb (JsString.endsWith f) inputExtensions = true).
  { apply existsb_exists. by exists ext. }
  rewrite He. simpl. rewrite Hp. simpl.
  unfold needsPandoc, needsLaTeX.
  destruct (String.eqb_spec format "html") as [->|Hne]; simpl; [done|].
  reflexivity.
Qed.

Lemma with_pandoc_witness :
  fst (currentFileCanBeExported
         (createBinaryMap None None (Some "/usr/bin/pandoc") None initialState)
         (Some "/vault/notes/a.md") "pdf") = true.
Proof.
  apply (with_pandoc_every_format_is_offered None None (Some "/usr/bin/pandoc") None
           initialState "/vault/notes/a.md" "md" "pdf");
    [reflexivity | reflexivity | discriminate | cbv; tauto | reflexivity].
Defined.

(** X24: when [createBinaryMap] finds no Pandoc and none was found before,
    the check afterwards offers the format html, which needs no Pandoc, for
    a supported file, and refuses every other format. *)
Theorem without_pandoc_only_html_is_offered
    (settingsPandoc settingsPdflatex foundPandoc foundPdflatex : option string)
    (st : PluginState) (f ext format : string) :
  binaryMapInitialized st = false -> everFoundPandoc st = false ->
  isTruthy (jsOr settingsPandoc foundPandoc) = false ->
  f <> EmptyString -> In ext inputExtensions -> JsString.endsWith f ext = true ->
  fst (currentFileCanBeExported
         (createBinaryMap settingsPandoc settingsPdflatex foundPandoc foundPdflatex st)
         (Some f) format)
  = String.eqb format "html".
Proof.
  intros Hi He Hp Hf Hin Hends. unfold createBinaryMap. rewrite Hi, Hp.
  unfold currentFileCanBeExported. rewrite (truthy_nonempty f Hf).
  assert (Hx : existsb (JsString.endsWith f) inputExtensions = true).
  { apply existsb_exists. by exists ext. }
  rewrite Hx. simpl. rewrite He, Hp. simpl.
  unfold needsPandoc, needsLaTeX.
  destruct (String.eqb_spec format "html") as [->|Hne]; simpl; reflexivity.
Qed.

Lemma without_pandoc_witness :
  fst (currentFileCanBeExported
         (createBinaryMap None None None (Some "/usr/bin/pdflatex") initialState)
         (Some "/vault/notes/a.md") "docx")
  = String.eqb "docx" "html".
Proof.
  apply (without_pandoc_only_html_is_offered None None None (Some "/usr/bin/pdflatex")
           initialState "/vault/notes/a.md" "md" "docx");
    [reflexivity | reflexivity | reflexivity | discriminate | cbv; tauto | reflexivity].
Defined.

(** X25: after initialisation, when the check offers a format that needs
    Pandoc, the binary map holds a path to Pandoc afterwards: the one it had,
    or the cached one that the check restores. *)
Theorem offered_pandoc_format_has_a_path (st : PluginState) (file : option string)
    (format : string) :
  (everFoundPandoc st = true -> isTruthy (cachedPandocPath st) = true) ->
  binaryMapInitialized st = true -> needsPandoc format = true ->
  fst (currentFileCanBeExported st file format) = true ->
  isTruthy (features_pandoc (snd (currentFileCanBeExported st file format))) = true.
Proof.
  intros Hinv Hi Hn. unfold currentFileCanBeExported.
  destruct (truthy file); [|discriminate].
  destruct (negb (existsb _ _)); [discriminate|].
  rewrite Hi, Hn. simpl.
  destruct (everFoundPandoc st) eqn:He; simpl.
  - rewrite (Hinv eq_refl).
    destruct (isTruthy (features_pandoc st)) eqn:Hp; simpl; [done|].
    intros _. by apply Hinv.
  - destruct (isTruthy (features_pandoc st)) eqn:Hp; simpl; [|discriminate].
    by destruct (needsLaTeX format && _).
Qed.

Lemma offered_pandoc_format_witness :
  isTruthy
    (features_pandoc
       (snd (currentFileCanBeExported
               (mkState None None true true (Some "/usr/bin/pandoc"))
               (Some "/vault/notes/a.md") "docx"))) = true.
Proof.
  apply offered_pandoc_format_has_a_path;
    [reflexivity | reflexivity | reflexivity | reflexivity].
Defined.

(** ** The header of a document *)

Lemma trim_end_cons (c : ascii) (s : string) :
  JsString.is_space c = false ->
  JsString.trim_end (String c s) = String c (JsString.trim_end s).
Proof. intros Hc. simpl. destruct (JsString.trim_end s); by rewrite ?Hc. Qed.

Lemma trim_end_app (a b : string) :
  JsString.trim_end b <> EmptyString ->
  JsString.trim_end (a +:+ b) = a +:+ JsString.trim_end b.
Proof.
  intros Hb. induction a as [|c a IH]; simpl; [done|]. rewrite IH.
  destruct (a +:+ JsString.trim_end b) eqn:Ha; [|done].
  destruct a; simpl in Ha; [done | discriminate].
Qed.

Lemma trim_end_prefix (t : string) : exists w, t = JsString.trim_end t +:+ w.
Proof.
  induction t as [|c t [w IH]]; [by exists EmptyString|]. simpl.
  destruct (JsString.trim_end t) as [|x u] eqn:Ht.
  - destruct (JsString.is_space c).
    + by exists (String c t).
    + exists w. simpl. by rewrite IH at 1.
  - exists w. simpl. by rewrite IH at 1.
Qed.

Lemma trim_marker (x : string) : trim ("---" +:+ x) = "---" +:+ JsString.trim_end x.
Proof. unfold trim. simpl JsString.trim_start. by rewrite !trim_end_cons. Qed.

Lemma indexOf_app_None (a b p : string) :
  indexOf (a +:+ b) p = None -> indexOf a p = None.
Proof.
  induction a as [|c a IH].
  - intros H. destruct p as [|x p]; [by destruct b|]. reflexivity.
  - change (String c a +:+ b) with (String c (a +:+ b)). cbn [indexOf].
    destruct (String.prefix p (String c (a +:+ b))) eqn:Hp; [done|].
    destruct (indexOf (a +:+ b) p) eqn:Hi; [done|]. intros _.
    destruct (String.prefix p (String c a)) eqn:Hq.
    + apply (prefix_app p (String c a) b) in Hq.
      change (String c a +:+ b) with (String c (a +:+ b)) in Hq. congruence.
    + by rewrite IH.
Qed.

Lemma prefix_cons (a c : ascii) (p s : string) :
  String.prefix (String a p) (String c s)
  = if ascii_dec a c then String.prefix p s else false.
Proof. reflexivity. Qed.

Lemma prefix_nil (s : string) : String.prefix EmptyString s = true.
Proof. by destruct s. Qed.

Lemma marker_not_earlier (c : ascii) (t r : string) :
  String.prefix "---" (String c (t +:+ "--")) = false ->
  String.prefix "---" (String c (t +:+ "---" +:+ r)) = false.
Proof.
  destruct t as [|c2 [|c3 t]]; cbn [String.append];
    rewrite ?prefix_cons, ?prefix_nil;
    repeat (destruct (ascii_dec _ _)); try done.
Qed.

Lemma indexOf_marker (t r : string) :
  indexOf (t +:+ "--") "---" = None ->
  indexOf (t +:+ "---" +:+ r) "---" = Some (String.length t).
Proof.
  induction t as [|c t IH]; [by destruct r|].
  change (String c t +:+ ?x) with (String c (t +:+ x)).
  cbn [indexOf String.length].
  destruct (String.prefix "---" (String c (t +:+ "--"))) eqn:Hp; [done|].
  rewrite (marker_not_earlier c t r Hp).
  destruct (indexOf (t +:+ "--") "---") eqn:Hi; [done|]. intros _.
  by rewrite IH.
Qed.

(** X26: a header between two marker lines is handed to the YAML parser
    trimmed and complete: when the text after the opening marker does not
    contain the marker before the closing one, the parser receives exactly
    that text, without the white space around it, whatever follows the
    closing marker. *)
Theorem header_is_extracted (YAML_parse : string -> value) (t rest : string) :
  indexOf (t +:+ "--") "---" = None ->
  getYAMLMetadata YAML_parse ("---" +:+ t +:+ "---" +:+ rest) = YAML_parse (trim t).
Proof.
  intros Ht. unfold getYAMLMetadata. rewrite trim_marker.
  rewrite startsWith_app.
  change (JsString.drop 3 ("---" +:+ ?x)) with x.
  assert (Hend : JsString.trim_end (t +:+ "---" +:+ rest)
                 = t +:+ "---" +:+ JsString.trim_end rest).
  { assert (Hm : JsString.trim_end ("---" +:+ rest) = "---" +:+ JsString.trim_end rest).
    { cbn [String.append]. by rewrite !trim_end_cons. }
    rewrite trim_end_app; by rewrite Hm. }
  rewrite Hend, indexOf_marker by done. by rewrite take_app.
Qed.

Lemma header_is_extracted_witness :
  getYAMLMetadata (fun s => VStr s)
    ("---" +:+ (String (ascii_of_nat 10) "pandoc-toc: true" +:+ String (ascii_of_nat 10) EmptyString)
     +:+ "---" +:+ " body")
  = VStr "pandoc-toc: true".
Proof.
  apply (header_is_extracted (fun s => VStr s)
           (String (ascii_of_nat 10) "pandoc-toc: true"
            +:+ String (ascii_of_nat 10) EmptyString) " body").
  reflexivity.
Defined.

(** X27: a document that does not begin with the marker, leading white
    space aside, has the empty header, and the YAML parser is not asked; a
    document whose opening marker is never closed hands the empty text to the
    parser. *)
Theorem header_edge_cases (YAML_parse : string -> value) :
  (forall markdown, JsString.startsWith (JsString.trim_start markdown) "---" = false ->
                    getYAMLMetadata YAML_parse markdown = VObj [])
  /\ (forall t, indexOf t "---" = None ->
                getYAMLMetadata YAML_parse ("---" +:+ t) = YAML_parse EmptyString).
Proof.
  split.
  - intros markdown H. unfold getYAMLMetadata.
    destruct (JsString.startsWith (trim markdown) "---") eqn:Hs; [|done].
    unfold trim in Hs.
    destruct (trim_end_prefix (JsString.trim_start markdown)) as [w Hw].
    unfold JsString.startsWith in *.
    apply (prefix_app _ _ w) in Hs. rewrite <- Hw in Hs. congruence.
  - intros t Ht. unfold getYAMLMetadata. rewrite trim_marker, startsWith_app.
    change (JsString.drop 3 ("---" +:+ ?x)) with x.
    destruct (trim_end_prefix t) as [w Hw]. rewrite Hw in Ht.
    apply indexOf_app_None in Ht. by rewrite Ht.
Qed.

Lemma header_edge_cases_witness :
  getYAMLMetadata (fun s => VStr s) "# Title" = VObj []
  /\ getYAMLMetadata (fun s => VStr s) ("---" +:+ " title: x") = VStr EmptyString.
Proof.
  destruct (header_edge_cases (fun s => VStr s)) as [H1 H2].
  split; [apply H1 | apply H2]; reflexivity.
Defined.

(** ** The cleaned metadata, key by key *)

(** X28: over the entries of a header object (distinct keys) the cleaned
    metadata of the compiler in [main.ts] have no key that starts with the
    directive marker; every field whose key neither starts with the marker
    nor is [__proto__] is in them under its key with its value; and they hold
    nothing else. *)
Theorem cleaned_metadata_own_fields (host : Host) (dir vault : string)
    (metadata : list (string * value)) :
  NoDup metadata.*1 ->
  (forall k, JsString.startsWith k "pandoc-" = true ->
             cleanedMetadata (convertYamlToPandocArgs host metadata dir vault) !! k = None)
  /\ (forall k v, (k, v) ∈ metadata -> JsString.startsWith k "pandoc-" = false ->
                  k <> "__proto__" ->
                  cleanedMetadata (convertYamlToPandocArgs host metadata dir vault) !! k
                  = Some v)
  /\ (forall k v, cleanedMetadata (convertYamlToPandocArgs host metadata dir vault) !! k
                  = Some v ->
                  (k, v) ∈ metadata /\ JsString.startsWith k "pandoc-" = false
                  /\ k <> "__proto__").
Proof.
  intros Hnd. unfold convertYamlToPandocArgs. split; [|split].
  - intros k Hk. by rewrite cleaned_directive.
  - intros k v Hin Hk Hp. by apply cleaned_copied.
  - intros k v H. apply cleaned_origin in H as [H|H]; [|exact H].
    simpl in H. by rewrite lookup_empty in H.
Qed.

Lemma cleaned_metadata_own_fields_witness :
  cleanedMetadata
    (convertYamlToPandocArgs (Posix.host "/" [] None)
       [("title", VStr "Report"); ("pandoc-toc", VBool true)] "/vault/notes" "/vault")
  !! "pandoc-toc" = None
  /\ cleanedMetadata
       (convertYamlToPandocArgs (Posix.host "/" [] None)
          [("title", VStr "Report"); ("pandoc-toc", VBool true)] "/vault/notes" "/vault")
     !! "title" = Some (VStr "Report").
Proof.
  assert (Hnd : NoDup [("title", VStr "Report"); ("pandoc-toc", VBool true)].*1).
  { simpl. apply NoDup_cons. split; [|apply NoDup_singleton].
    intros H. apply elem_of_cons in H as [H|H]; [discriminate|].
    by apply elem_of_nil in H. }
  destruct (cleaned_metadata_own_fields (Posix.host "/" [] None)
              "/vault/notes" "/vault" _ Hnd) as (Hdir & Hcopy & _).
  split.
  - apply Hdir. reflexivity.
  - apply Hcopy; [|reflexivity|discriminate]. apply elem_of_cons. by left.
Defined.

(** ** The compiler of renderer.ts *)

Lemma validate_cases (name : string) (v : value) :
  validatePandocOption name v = valid
  \/ exists msg, validatePandocOption name v = invalid msg.
Proof.
  unfold validatePandocOption.
  destruct (schemaOf name) as [schema|]; [|by left].
  destruct (type schema).
  - destruct (flagOnly schema && _); [right; by eexists|].
    destruct (negb _); [right; by eexists | by left].
  - destruct (negb _); [right; by eexists | by left].
  - destruct (match v with VStr s => _ | _ => _ end); [right; by eexists | by left].
  - destruct (choices schema); [|by left].
    destruct (_ || _); [right; by eexists | by left].
  - destruct (negb _); [right; by eexists | by left].
Qed.

Section RendererFacts.

Context (host : Host) (dir vault : string) (folder : option string).

Lemma renderer_fold (md : list (string * value)) (acc : Renderer.Compiled) :
  Renderer.cliArgs
    (List.fold_left (Renderer.compileField host dir vault folder) md acc)
  = Renderer.cliArgs acc
    ++ List.flat_map (fun field => fst (Renderer.fieldOutput host dir vault folder field)) md
  /\ Renderer.notices
       (List.fold_left (Renderer.compileField host dir vault folder) md acc)
     = Renderer.notices acc
       ++ List.flat_map
            (fun field => snd (Renderer.fieldOutput host dir vault folder field)) md.
Proof.
  revert acc. induction md as [|[key v] md IH]; intros acc.
  - simpl. by rewrite !app_nil_r.
  - cbn [List.fold_left List.flat_map].
    destruct (IH (Renderer.compileField host dir vault folder acc (key, v))) as [-> ->].
    unfold Renderer.fieldOutput, Renderer.compileField. cbn [fst snd].
    destruct (JsString.startsWith key "pandoc-"); cbn [Renderer.cliArgs Renderer.notices].
    + by rewrite <- !app_assoc.
    + by destruct (String.eqb key "__proto__").
Qed.

Lemma renderer_around (pre post : list (string * value)) (name : string) (v : value) :
  Renderer.cliArgs
    (Renderer.convertYamlToPandocArgs host (pre ++ ("pandoc-" +:+ name, v) :: post)
       dir vault folder)
  = Renderer.cliArgs (Renderer.convertYamlToPandocArgs host pre dir vault folder)
    ++ fst (Renderer.directiveOutput host ("pandoc-" +:+ name) v dir vault folder)
    ++ Renderer.cliArgs (Renderer.convertYamlToPandocArgs host post dir vault folder)
  /\ Renderer.notices
       (Renderer.convertYamlToPandocArgs host (pre ++ ("pandoc-" +:+ name, v) :: post)
          dir vault folder)
     = Renderer.notices (Renderer.convertYamlToPandocArgs host pre dir vault folder)
       ++ snd (Renderer.directiveOutput host ("pandoc-" +:+ name) v dir vault folder)
       ++ Renderer.notices (Renderer.convertYamlToPandocArgs host post dir vault folder).
Proof.
  unfold Renderer.convertYamlToPandocArgs.
  destruct (renderer_fold (pre ++ ("pandoc-" +:+ name, v) :: post)
              (Renderer.mkCompiled ∅ [] [])) as [-> ->].
  destruct (renderer_fold pre (Renderer.mkCompiled ∅ [] [])) as [-> ->].
  destruct (renderer_fold post (Renderer.mkCompiled ∅ [] [])) as [-> ->].
  assert (Hfield : Renderer.fieldOutput host dir vault folder ("pandoc-" +:+ name, v)
                   = Renderer.directiveOutput host ("pandoc-" +:+ name) v dir vault folder).
  { unfold Renderer.fieldOutput. cbn [fst snd]. by rewrite startsWith_app. }
  cbn [Renderer.cliArgs Renderer.notices].
  rewrite !flat_map_app. cbn [List.flat_map]. rewrite Hfield.
  by rewrite !app_nil_l.
Qed.

End RendererFacts.

(** X29: in the compiler of [renderer.ts] a registered boolean directive
    whose value is true yields exactly one token and no notice: the bare
    switch [--name] when the option is flag-only, [--name=true] when it is
    not; a boolean directive whose value is false yields no token. *)
Theorem renderer_boolean_directive (host : Host) (dir vault : string)
    (folder : option string) (pre post : list (string * value))
    (name : string) (schema : PandocOptionSchema) :
  schemaOf name = Some schema -> type schema = TBoolean ->
  Renderer.cliArgs
    (Renderer.convertYamlToPandocArgs host
       (pre ++ ("pandoc-" +:+ name, VBool true) :: post) dir vault folder)
  = Renderer.cliArgs (Renderer.convertYamlToPandocArgs host pre dir vault folder)
    ++ [if flagOnly schema then "--" +:+ name else "--" +:+ name +:+ "=true"]
    ++ Renderer.cliArgs (Renderer.convertYamlToPandocArgs host post dir vault folder)
  /\ Renderer.notices
       (Renderer.convertYamlToPandocArgs host
          (pre ++ ("pandoc-" +:+ name, VBool true) :: post) dir vault folder)
     = Renderer.notices (Renderer.convertYamlToPandocArgs host pre dir vault folder)
       ++ Renderer.notices (Renderer.convertYamlToPandocArgs host post dir vault folder)
  /\ Renderer.cliArgs
       (Renderer.convertYamlToPandocArgs host
          (pre ++ ("pandoc-" +:+ name, VBool false) :: post) dir vault folder)
     = Renderer.cliArgs (Renderer.convertYamlToPandocArgs host pre dir vault folder)
       ++ Renderer.cliArgs (Renderer.convertYamlToPandocArgs host post dir vault folder).
Proof.
  intros Hs Ht.
  assert (Htrue : Renderer.directiveOutput host ("pandoc-" +:+ name) (VBool true)
                    dir vault folder
                  = ([if flagOnly schema then "--" +:+ name
                      else "--" +:+ name +:+ "=true"], [])).
  { unfold Renderer.directiveOutput, validatePandocOption, isFlagOnlyOption.
    change (JsString.drop 7 ("pandoc-" +:+ name)) with name.
    rewrite Hs, Ht. by destruct (flagOnly schema). }
  assert (Hfalse : fst (Renderer.directiveOutput host ("pandoc-" +:+ name) (VBool false)
                          dir vault folder) = []).
  { unfold Renderer.directiveOutput, validatePandocOption.
    change (JsString.drop 7 ("pandoc-" +:+ name)) with name.
    rewrite Hs, Ht. by destruct (flagOnly schema). }
  destruct (renderer_around host dir vault folder pre post name (VBool true)) as [-> ->].
  destruct (renderer_around host dir vault folder pre post name (VBool false)) as [-> _].
  by rewrite Htrue, Hfalse.
Qed.

Lemma renderer_boolean_witness :
  Renderer.cliArgs
    (Renderer.convertYamlToPandocArgs (Posix.host "/" [] None)
       ([("pandoc-" +:+ "toc", VBool true)] ++ ("pandoc-" +:+ "standalone", VBool true) :: [])
       "/vault/notes" "/vault" None)
  = ["--toc"; "--standalone=true"].
Proof.
  destruct (renderer_boolean_directive (Posix.host "/" [] None) "/vault/notes" "/vault"
              None [("pandoc-" +:+ "toc", VBool true)] [] "standalone"
              (mkSchema TBoolean false None false) eq_refl eq_refl) as (H & _).
  rewrite H. reflexivity.
Defined.

(** X30: in the compiler of [renderer.ts] a directive whose value the
    validator refuses yields no token and exactly one notice, which carries
    the validator's message, and the fields before and after it are compiled
    as they would be without it. *)
Theorem renderer_drops_invalid_directive (host : Host) (dir vault : string)
    (folder : option string) (pre post : list (string * value))
    (name : string) (v : value) :
  isValid (validatePandocOption name v) = false ->
  exists msg,
    error (validatePandocOption name v) = Some msg
    /\ Renderer.cliArgs
         (Renderer.convertYamlToPandocArgs host
            (pre ++ ("pandoc-" +:+ name, v) :: post) dir vault folder)
       = Renderer.cliArgs (Renderer.convertYamlToPandocArgs host pre dir vault folder)
         ++ Renderer.cliArgs (Renderer.convertYamlToPandocArgs host post dir vault folder)
    /\ Renderer.notices
         (Renderer.convertYamlToPandocArgs host
            (pre ++ ("pandoc-" +:+ name, v) :: post) dir vault folder)
       = Renderer.notices (Renderer.convertYamlToPandocArgs host pre dir vault folder)
         ++ ["Pandoc argument validation error: " +:+ msg]
         ++ Renderer.notices (Renderer.convertYamlToPandocArgs host post dir vault folder).
Proof.
  intros Hbad.
  destruct (validate_cases name v) as [Hv|[msg Hv]]; [by rewrite Hv in Hbad|].
  exists msg. split; [by rewrite Hv|].
  assert (Hout : Renderer.directiveOutput host ("pandoc-" +:+ name) v dir vault folder
                 = ([], ["Pandoc argument validation error: " +:+ msg])).
  { unfold Renderer.directiveOutput.
    change (JsString.drop 7 ("pandoc-" +:+ name)) with name.
    by rewrite Hv. }
  destruct (renderer_around host dir vault folder pre post name v) as [-> ->].
  by rewrite Hout.
Qed.

Lemma renderer_drops_invalid_witness :
  exists msg,
    error (validatePandocOption "toc-depth" (VStr "not-a-number")) = Some msg
    /\ Renderer.cliArgs
         (Renderer.convertYamlToPandocArgs (Posix.host "/" [] None)
            ([("pandoc-toc", VBool true)]
             ++ ("pandoc-" +:+ "toc-depth", VStr "not-a-number")
             :: [("pandoc-pdf-engine", VStr "lualatex")])
            "/vault/notes" "/vault" None)
       = Renderer.cliArgs
           (Renderer.convertYamlToPandocArgs (Posix.host "/" [] None)
              [("pandoc-toc", VBool true)] "/vault/notes" "/vault" None)
         ++ Renderer.cliArgs
              (Renderer.convertYamlToPandocArgs (Posix.host "/" [] None)
                 [("pandoc-pdf-engine", VStr "lualatex")] "/vault/notes" "/vault" None)
    /\ Renderer.notices
         (Renderer.convertYamlToPandocArgs (Posix.host "/" [] None)
            ([("pandoc-toc", VBool true)]
             ++ ("pandoc-" +:+ "toc-depth", VStr "not-a-number")
             :: [("pandoc-pdf-engine", VStr "lualatex")])
            "/vault/notes" "/vault" None)
       = Renderer.notices
           (Renderer.convertYamlToPandocArgs (Posix.host "/" [] None)
              [("pandoc-toc", VBool true)] "/vault/notes" "/vault" None)
         ++ ["Pandoc argument validation error: " +:+ msg]
         ++ Renderer.notices
              (Renderer.convertYamlToPandocArgs (Posix.host "/" [] None)
                 [("pandoc-pdf-engine", VStr "lualatex")] "/vault/notes" "/vault" None).
Proof.
  apply (renderer_drops_invalid_directive (Posix.host "/" [] None)
           "/vault/notes" "/vault" None). reflexivity.
Defined.

Example renderer_scenarios :
  Renderer.cliArgs
    (Renderer.convertYamlToPandocArgs (Posix.host "/" [] None)
       [("pandoc-toc", VBool true); ("pandoc-toc-depth", VStr "not-a-number");
        ("pandoc-pdf-engine", VStr "lualatex")] "/vault/notes" "/vault" None)
  = ["--toc"; "--pdf-engine=lualatex"]
  /\ Renderer.notices
       (Renderer.convertYamlToPandocArgs (Posix.host "/" [] None)
          [("pandoc-toc", VBool true); ("pandoc-toc-depth", VStr "not-a-number");
           ("pandoc-pdf-engine", VStr "lualatex")] "/vault/notes" "/vault" None)
     = ["Pandoc argument validation error: "
        +:+ "Option 'toc-depth' expects a number, got 'not-a-number'"].
Proof. split; reflexivity. Qed.
